(** * TunnelFlare: the supervision engine of [pyqt_app/main.py]

    A shallow embedding of [TunnelManager] (process probe, state store,
    log scanner, start / stop / list, log viewer) and of
    [TunnelsTab.stop_all_tunnels], with the properties of its specification
    and further properties of the code.

    Conventions of the embedding.
    - A Python [str] is a [string] of 8-bit characters, and the string
      functions are those of Python on ASCII text.
    - The directory [~/.cf-tunnels] is a finite map from file names to file
      contents, [~/.cf-tunnels/logs] another one.  A file is a text: a read
      yields the content, and there is no file whose bytes fail to decode.
      For a file of ASCII text this is what the source does under every
      locale.  A PID file in which the embedding finds an integer is such a
      file ([pid_record_ascii]); where a property depends on the reading of
      other files, it is stated for ASCII text ([ascii_text],
      [ascii_files]).
    - Text mode reads a CR LF and a CR of a file as LF.  This is applied
      where a file is cut into lines ([Py.lines]: the descriptor, the log
      viewer).  The PID file is stripped and parsed as an integer and the
      log is searched for URLs as they are stored, which gives the same
      integer and the same URLs ([pid_record_universal_newlines],
      [public_url_universal_newlines]).
    - The operating system is a record of transition functions over an
      abstract state; every theorem holds for every such record.  The
      embedding is sequential: the process table changes only when the
      program sleeps, signals, spawns or polls.
    - A method is a function from a world to a result, a new world and the
      list of effects it performed, in program order.
    - Qt signal emission ([log_message], [tunnels_updated]) is left out; the
      call of [get_running_tunnels] that computes the argument of
      [tunnels_updated.emit] is kept, because it purges stale entries.
    - [start_tunnel] is embedded as Python runs it.  Lines 214-216 import
      [subprocess], [time] and [os] inside the function, so [os] is a local
      variable of [start_tunnel] and line 183, the first to read it, raises
      [UnboundLocalError] for every accepted port and protocol.  The lines
      after it are not executed; of them only the texts that the f-strings
      of lines 188 and 198-201 denote are used below ([suffixed],
      [config_text]), as texts. *)

From stdpp Require Import gmap strings list fin_maps pretty.
From Stdlib Require Import Ascii String ZArith Lia.

Local Open Scope string_scope.
Local Open Scope list_scope.

(** ** Python string operations used by the source *)

Module Py.

Definition ord (c : ascii) : N := N_of_ascii c.

Definition in_range (lo hi : N) (c : ascii) : bool :=
  (lo <=? ord c)%N && (ord c <=? hi)%N.

Definition is_digit (c : ascii) : bool := in_range 48 57 c.
Definition is_upper (c : ascii) : bool := in_range 65 90 c.
Definition is_lower (c : ascii) : bool := in_range 97 122 c.

(** [str.isspace] on the 8-bit characters: TAB..CR, FS..US and SPACE. *)
Definition is_space (c : ascii) : bool :=
  in_range 9 13 c || in_range 28 31 c || (ord c =? 32)%N.

Fixpoint str_all (p : ascii -> bool) (s : string) : bool :=
  match s with
  | EmptyString => true
  | String c s' => p c && str_all p s'
  end.

Fixpoint lstrip (s : string) : string :=
  match s with
  | EmptyString => EmptyString
  | String c s' => if is_space c then lstrip s' else s
  end.

(** [rstrip] keeps a character when it is not a space or when something
    that is kept follows it. *)
Fixpoint rstrip (s : string) : string :=
  match s with
  | EmptyString => EmptyString
  | String c s' =>
      match rstrip s' with
      | EmptyString => if is_space c then EmptyString else String c EmptyString
      | r => String c r
      end
  end.

(** [s.strip()] *)
Definition strip (s : string) : string := rstrip (lstrip s).

(** [s.startswith(p)] *)
Definition startswith (p s : string) : bool := String.prefix p s.

(** [s.endswith(suf)]: some tail of [s] is [suf]. *)
Fixpoint endswith (suf s : string) : bool :=
  if String.eqb s suf then true
  else match s with
       | EmptyString => false
       | String _ s' => endswith suf s'
       end.

(** [s[n:]] *)
Fixpoint drop (n : nat) (s : string) : string :=
  match n, s with
  | O, _ => s
  | S _, EmptyString => EmptyString
  | S n', String _ s' => drop n' s'
  end.

(** [s[:n]] *)
Fixpoint take (n : nat) (s : string) : string :=
  match n, s with
  | O, _ => EmptyString
  | S _, EmptyString => EmptyString
  | S n', String c s' => String c (take n' s')
  end.

(** [s.replace(old, new)] for a non-empty [old]: occurrences are replaced
    from the left and do not overlap.  [skip] counts the characters of an
    occurrence that are still to be passed over. *)
Fixpoint replace_from (old new : string) (skip : nat) (s : string) : string :=
  match s with
  | EmptyString => EmptyString
  | String c s' =>
      match skip with
      | S k => replace_from old new k s'
      | O =>
          if String.prefix old s
          then new +:+ replace_from old new (String.length old - 1) s'
          else String c (replace_from old new 0 s')
      end
  end.

Definition replace (old new s : string) : string := replace_from old new 0 s.

(** [int(s)] in base 10 on 8-bit text: surrounding white space, an optional
    sign, then digits in which single underscores may separate digits.
    [None] stands for [ValueError].  The white space that [int] skips is
    TAB..CR and SPACE; FS..US, which [str.strip] removes, make [int] fail.
    (The limit that recent versions of CPython put on the number of digits,
    4300 unless configured, is left out.) *)
Definition is_c_space (c : ascii) : bool :=
  in_range 9 13 c || (ord c =? 32)%N.

Fixpoint lskip (s : string) : string :=
  match s with
  | EmptyString => EmptyString
  | String c s' => if is_c_space c then lskip s' else s
  end.

Fixpoint rskip (s : string) : string :=
  match s with
  | EmptyString => EmptyString
  | String c s' =>
      match rskip s' with
      | EmptyString => if is_c_space c then EmptyString else String c EmptyString
      | r => String c r
      end
  end.

Definition digit_val (c : ascii) : Z := Z.of_N (ord c) - 48.

Fixpoint int_digits (acc : Z) (after_digit : bool) (s : string) : option Z :=
  match s with
  | EmptyString => if after_digit then Some acc else None
  | String c s' =>
      if is_digit c then int_digits (10 * acc + digit_val c) true s'
      else if (ord c =? 95)%N && after_digit then
        match s' with
        | String d _ => if is_digit d then int_digits acc false s' else None
        | EmptyString => None
        end
      else None
  end.

Definition int (s : string) : option Z :=
  match rskip (lskip s) with
  | String "+" r => int_digits 0 false r
  | String "-" r => Z.opp <$> int_digits 0 false r
  | r => int_digits 0 false r
  end.

(** [str(n)] for an integer. *)
Definition str (n : Z) : string := pretty n.

(** What a file opened in text mode hands to the program: every CR LF and
    every other CR of the file has become one LF. *)
Fixpoint universal_newlines (s : string) : string :=
  match s with
  | EmptyString => EmptyString
  | String c s' =>
      if (ord c =? 13)%N then
        String "010"
          match s' with
          | String d s'' =>
              if (ord d =? 10)%N then universal_newlines s''
              else universal_newlines s'
          | EmptyString => EmptyString
          end
      else String c (universal_newlines s')
  end.

(** The lines of a text, cut after each LF: each line keeps its
    terminating newline. *)
Fixpoint lines_from (cur : string -> string) (s : string) : list string :=
  match s with
  | EmptyString => match cur EmptyString with EmptyString => [] | l => [l] end
  | String c s' =>
      if (ord c =? 10)%N
      then cur (String c EmptyString) :: lines_from (fun t => t) s'
      else lines_from (fun t => cur (String c t)) s'
  end.

(** The lines of a text file as iteration over the file object, or
    [readlines], yields them. *)
Definition lines (s : string) : list string :=
  lines_from (fun t => t) (universal_newlines s).

(** [''.join(l)] *)
Definition join (l : list string) : string :=
  fold_right String.append EmptyString l.

(** [l[start:]]: a negative [start] counts from the end of the list, and
    the result is clipped to the list. *)
Definition slice_from {A} (start : Z) (l : list A) : list A :=
  let n := Z.of_nat (List.length l) in
  let first :=
    if (start <? 0)%Z then Z.max 0 (n + start) else Z.min start n in
  skipn (Z.to_nat first) l.

End Py.

(** ** Regular expressions of the source *)

Module Re.

(** The class [[a-zA-Z0-9-]] of the public-URL pattern. *)
Definition is_label_char (c : ascii) : bool :=
  Py.is_lower c || Py.is_upper c || Py.is_digit c || (Py.ord c =? 45)%N.

(** The class [[a-zA-Z0-9_-]] whose complement [re.sub] replaces. *)
Definition is_id_char (c : ascii) : bool :=
  Py.is_lower c || Py.is_upper c || Py.is_digit c
  || (Py.ord c =? 95)%N || (Py.ord c =? 45)%N.

(** [re.sub(r'[^a-zA-Z0-9_-]', '_', name)]: every character outside the
    class becomes ['_'].  ([re.sub] works on code points; in ASCII text
    these are the characters.) *)
Fixpoint sub_non_id (name : string) : string :=
  match name with
  | EmptyString => EmptyString
  | String c s => String (if is_id_char c then c else "_"%char) (sub_non_id s)
  end.

(** The longest run of label characters at the head of [s], and the rest:
    the greedy [[a-zA-Z0-9-]*]. *)
Fixpoint span_label (s : string) : string * string :=
  match s with
  | EmptyString => (EmptyString, EmptyString)
  | String c s' =>
      if is_label_char c
      then let (run, rest) := span_label s' in (String c run, rest)
      else (EmptyString, s)
  end.

Definition url_head : string := "https://".
Definition url_tail : string := ".trycloudflare.com".

(** A match of [https://[a-zA-Z0-9-]*\.trycloudflare\.com] anchored at the
    head of [s].  The class excludes the dot, so giving back characters of
    the greedy run never helps: the run is followed by the literal tail or
    there is no match here. *)
Definition match_url (s : string) : option string :=
  if String.prefix url_head s then
    let (run, rest) := span_label (Py.drop (String.length url_head) s) in
    if String.prefix url_tail rest then Some (url_head +:+ run +:+ url_tail)
    else None
  else None.

(** [re.findall(pattern, content)]: matches from left to right that do not
    overlap.  [skip] counts the characters of the last match that the scan
    still has to pass. *)
Fixpoint findall_from (skip : nat) (s : string) : list string :=
  match s with
  | EmptyString => []
  | String c s' =>
      match skip with
      | S k => findall_from k s'
      | O =>
          match match_url s with
          | Some m => m :: findall_from (String.length m - 1) s'
          | None => findall_from 0 s'
          end
      end
  end.

Definition findall (content : string) : list string := findall_from 0 content.

End Re.

(** ** Exceptions, the operating system, effects *)

(** The exception classes the source distinguishes.  [OSError] stands for
    an [OSError] of no more specific class below, [Exception] for any other
    exception. *)
Inductive exn : Type :=
| ValueError
| FileNotFoundError
| ProcessLookupError
| PermissionError
| OSError
| OverflowError
| UnboundLocalError
| Exception.

(** [isinstance(e, OSError)] *)
Definition is_OSError (e : exn) : bool :=
  match e with
  | FileNotFoundError | ProcessLookupError | PermissionError | OSError => true
  | ValueError | OverflowError | UnboundLocalError | Exception => false
  end.

Inductive signal : Type := SIGTERM | SIGKILL.

(** What [os.kill] does: it returns, or raises [ProcessLookupError] (no such
    process), [PermissionError] (the process exists and may not be
    signalled), another [OSError], or [OverflowError] (the pid does not fit
    the C type; not an [OSError]). *)
Inductive kill_result : Type :=
| KillOk
| KillNoProcess
| KillPermission
| KillOSError
| KillOverflow.

Definition kill_exn (r : kill_result) : option exn :=
  match r with
  | KillOk => None
  | KillNoProcess => Some ProcessLookupError
  | KillPermission => Some PermissionError
  | KillOSError => Some OSError
  | KillOverflow => Some OverflowError
  end.

Inductive popen_result : Type :=
| Spawned (pid : Z)
| PopenRaises (e : exn).

(** The operating system as the program sees it. *)
Record OS : Type := {
  ostate : Type;
  (** [os.kill(pid, 0)]: no effect on the process table *)
  os_probe : ostate -> Z -> kill_result;
  (** [os.kill(pid, sig)] *)
  os_signal : ostate -> Z -> signal -> kill_result * ostate;
  (** [time.sleep(0.5)] *)
  os_sleep : ostate -> ostate;
  (** [subprocess.Popen(['cloudflared', 'tunnel', '--url', url], ...)] *)
  os_popen : ostate -> string -> popen_result * ostate;
  (** [process.poll()]: the return code when the child has exited *)
  os_poll : ostate -> Z -> option Z * ostate
}.

(** The effects of a run, in program order. *)
Inductive event : Type :=
| EvWrite (path content : string)
| EvRemove (path : string)
| EvOpenLog (name : string)
| EvProbe (pid : Z) (r : kill_result)
| EvSignal (pid : Z) (s : signal) (r : kill_result)
| EvSleep
| EvPopen (url : string) (r : popen_result)
| EvPoll (pid : Z) (r : option Z).

(** The outcome of a computation: a value, a raised exception, or
    [Diverge] for a computation that does not come to an end.  The loops
    that the embedded methods run are bounded (a [for] over a list, over
    [range(10)]), and none of the methods below yields [Diverge]. *)
Inductive result (A : Type) : Type :=
| Ok (a : A)
| Raise (e : exn)
| Diverge.

Arguments Ok {A} a.
Arguments Raise {A} e.
Arguments Diverge {A}.

Record world (os : OS) : Type := World {
  dir : gmap string string;   (** the files of [~/.cf-tunnels] *)
  logs : gmap string string;  (** the files of [~/.cf-tunnels/logs] *)
  ost : ostate os
}.

Arguments World {os} dir logs ost.
Arguments dir {os} w.
Arguments logs {os} w.
Arguments ost {os} w.

Definition M (os : OS) (A : Type) : Type :=
  world os -> result A * world os * list event.

Section Effects.
Context {os : OS}.

Definition ret {A} (a : A) : M os A := fun w => (Ok a, w, []).

Definition raise {A} (e : exn) : M os A := fun w => (Raise e, w, []).

Definition diverge {A} : M os A := fun w => (Diverge, w, []).

Definition bind {A B} (m : M os A) (k : A -> M os B) : M os B :=
  fun w =>
    match m w with
    | (Ok a, w1, t1) =>
        match k a w1 with
        | (r, w2, t2) => (r, w2, t1 ++ t2)
        end
    | (Raise e, w1, t1) => (Raise e, w1, t1)
    | (Diverge, w1, t1) => (Diverge, w1, t1)
    end.

(** [try: m  except ...: h]: [h e] is the body of the first clause that
    catches [e], [None] when no clause does. *)
Definition try_except {A} (m : M os A) (h : exn -> option (M os A)) : M os A :=
  fun w =>
    match m w with
    | (Raise e, w1, t1) =>
        match h e with
        | Some k =>
            match k w1 with
            | (r, w2, t2) => (r, w2, t1 ++ t2)
            end
        | None => (Raise e, w1, t1)
        end
    | out => out
    end.

End Effects.

Notation "x <- m ;; k" := (bind m (fun x => k))
  (at level 100, m at next level, right associativity).
Notation "m ;;; k" := (bind m (fun _ => k))
  (at level 100, right associativity).

(** The calls of the source on files and processes.  ([write_file],
    [open_log], [popen] and [poll] are the calls of lines 196-230, which no
    run reaches; they give the effects [EvWrite], [EvOpenLog], [EvPopen] and
    [EvPoll] their meaning.) *)
Section Primitives.
Context {os : OS}.

(** [os.path.exists(os.path.join(tunnels_dir, name))] *)
Definition path_exists (name : string) : M os bool :=
  fun w => (Ok (match dir w !! name with Some _ => true | None => false end),
            w, []).

(** [open(path, 'r').read()] of a file of the directory *)
Definition read_file (name : string) : M os string :=
  fun w =>
    match dir w !! name with
    | Some c => (Ok c, w, [])
    | None => (Raise FileNotFoundError, w, [])
    end.

(** [open(path, 'w')] followed by the writes of [content] *)
Definition write_file (name content : string) : M os unit :=
  fun w => (Ok tt, World (<[name := content]> (dir w)) (logs w) (ost w),
            [EvWrite name content]).

(** [os.remove(path)] *)
Definition remove_file (name : string) : M os unit :=
  fun w =>
    match dir w !! name with
    | Some _ => (Ok tt, World (delete name (dir w)) (logs w) (ost w),
                 [EvRemove name])
    | None => (Raise FileNotFoundError, w, [])
    end.

(** [os.listdir(tunnels_dir)], in the order of the map *)
Definition listdir : M os (list string) :=
  fun w => (Ok ((map_to_list (dir w)).*1), w, []).

(** [open(log_path, 'a')]: the file is created when it is missing *)
Definition open_log (name : string) : M os unit :=
  fun w =>
    (Ok tt,
     World (dir w)
           (match logs w !! name with
            | Some _ => logs w
            | None => <[name := ""]> (logs w)
            end)
           (ost w),
     [EvOpenLog name]).

(** The content of [logs_dir/name], when the file exists *)
Definition read_log (name : string) : M os (option string) :=
  fun w => (Ok (logs w !! name), w, []).

(** [os.kill(pid, 0)] *)
Definition kill0 (pid : Z) : M os unit :=
  fun w =>
    let r := os_probe os (ost w) pid in
    (match kill_exn r with Some e => Raise e | None => Ok tt end,
     w, [EvProbe pid r]).

(** [os.kill(pid, sig)] *)
Definition kill (pid : Z) (sig : signal) : M os unit :=
  fun w =>
    let (r, o) := os_signal os (ost w) pid sig in
    (match kill_exn r with Some e => Raise e | None => Ok tt end,
     World (dir w) (logs w) o, [EvSignal pid sig r]).

(** [time.sleep(0.5)] *)
Definition sleep : M os unit :=
  fun w => (Ok tt, World (dir w) (logs w) (os_sleep os (ost w)), [EvSleep]).

(** [subprocess.Popen(...)]; the value is [process.pid] *)
Definition popen (url : string) : M os Z :=
  fun w =>
    let (r, o) := os_popen os (ost w) url in
    (match r with Spawned pid => Ok pid | PopenRaises e => Raise e end,
     World (dir w) (logs w) o, [EvPopen url r]).

(** [process.poll()] *)
Definition poll (pid : Z) : M os (option Z) :=
  fun w =>
    let (r, o) := os_poll os (ost w) pid in
    (Ok r, World (dir w) (logs w) o, [EvPoll pid r]).

(** [int(s)] *)
Definition py_int (s : string) : M os Z :=
  match Py.int s with
  | Some z => ret z
  | None => raise ValueError
  end.

End Primitives.

(** ** [TunnelManager] *)

(** The dictionary [tunnel_info] that [get_running_tunnels] returns for
    each running tunnel. *)
Record tunnel_info : Type := TunnelInfo {
  t_id : string;
  t_name : string;
  t_port : string;
  t_protocol : string;
  t_pid : string;
  t_public_url : string;
  t_is_running : bool
}.

(** The dictionary [config] of [get_running_tunnels] (its ['pid'] entry is
    the variable [pid]). *)
Record config : Type := Config {
  c_name : string;
  c_port : string;
  c_protocol : string
}.

(** Lines 112-118: one line of the [.config] file. *)
Definition read_config_line (cfg : config) (line : string) : config :=
  let line := Py.strip line in
  if Py.startswith "NAME=" line
  then Config (Py.drop 5 line) (c_port cfg) (c_protocol cfg)
  else if Py.startswith "PORT=" line
  then Config (c_name cfg) (Py.drop 5 line) (c_protocol cfg)
  else if Py.startswith "PROTOCOL=" line
  then Config (c_name cfg) (c_port cfg) (Py.drop 9 line)
  else cfg.

(** Lines 126-130: the last match of the public-URL pattern in the log,
    the empty string when there is none. *)
Definition public_url_of (content : string) : string :=
  match Re.findall content with
  | [] => ""
  | m :: ms => List.last ms m
  end.

(** The first eight characters of [str(uuid.uuid4())]: the leading 32 bits
    of the 128-bit value, in lower-case hexadecimal. *)
Definition hex_char (d : N) : ascii :=
  match d with
  | 0 => "0" | 1 => "1" | 2 => "2" | 3 => "3" | 4 => "4" | 5 => "5"
  | 6 => "6" | 7 => "7" | 8 => "8" | 9 => "9" | 10 => "a" | 11 => "b"
  | 12 => "c" | 13 => "d" | 14 => "e" | _ => "f"
  end%char%N.

Fixpoint hex_digits (n : nat) (x : N) (acc : string) : string :=
  match n with
  | O => acc
  | S n' => hex_digits n' (x / 16)%N (String (hex_char (x mod 16)%N) acc)
  end.

Definition uuid_prefix (uuid : N) : string :=
  hex_digits 8 (uuid / 2 ^ 96)%N "".

Definition pid_path (tunnel_id : string) : string := tunnel_id +:+ ".pid".
Definition config_path (tunnel_id : string) : string := tunnel_id +:+ ".config".
Definition log_path (tunnel_id : string) : string := tunnel_id +:+ ".log".

(** Line 188: the f-string [f"{sanitized_name}_{counter}"], for an integer
    [counter]. *)
Definition suffixed (sanitized_name : string) (counter : Z) : string :=
  sanitized_name +:+ "_" +:+ Py.str counter.

Section Manager.
Context {os : OS}.

(** Lines 152-158. *)
Definition is_process_running (pid : Z) : M os bool :=
  try_except (kill0 pid ;;; ret true)
    (fun e => if is_OSError e then Some (ret false) else None).

(** Lines 84-87, 94-97, 297-300, 333-336: remove the PID file, then the
    descriptor when it exists. *)
Definition remove_config_if_exists (tunnel_id : string) : M os unit :=
  e <- path_exists (config_path tunnel_id) ;;
  if e then remove_file (config_path tunnel_id) else ret tt.

(** Lines 100-118. *)
Definition read_config (tunnel_id : string) : M os config :=
  let cfg := Config tunnel_id "3000" "http" in
  e <- path_exists (config_path tunnel_id) ;;
  if e then
    content <- read_file (config_path tunnel_id) ;;
    ret (fold_left read_config_line (Py.lines content) cfg)
  else ret cfg.

(** Lines 120-130. *)
Definition read_public_url (tunnel_id : string) : M os string :=
  log <- read_log (log_path tunnel_id) ;;
  match log with
  | Some content => ret (public_url_of content)
  | None => ret ""
  end.

(** Lines 70-148: the body of the loop over the PID files; [None] is an
    iteration that appends nothing.  The outer [try] catches whatever the
    body raises; in the embedding that is the [OverflowError] of the probe
    and the [FileNotFoundError] of a file that is gone (a text is always
    read, see the conventions above). *)
Definition tunnel_entry (pid_file : string) : M os (option tunnel_info) :=
  let tunnel_id := Py.replace ".pid" "" pid_file in
  try_except
    (content <- read_file pid_file ;;
     let pid_content := Py.strip content in
     parsed <-
       try_except (pid <- py_int pid_content ;; ret (Some pid))
         (fun e =>
            match e with
            | ValueError =>
                Some (remove_file pid_file ;;;
                      remove_config_if_exists tunnel_id ;;;
                      ret None)
            | _ => None
            end) ;;
     match parsed with
     | None => ret None
     | Some pid =>
         process_running <- is_process_running pid ;;
         if negb process_running then
           remove_file pid_file ;;;
           remove_config_if_exists tunnel_id ;;;
           ret None
         else
           cfg <- read_config tunnel_id ;;
           public_url <- read_public_url tunnel_id ;;
           ret (Some (TunnelInfo tunnel_id (c_name cfg) (c_port cfg)
                        (c_protocol cfg) (Py.str pid) public_url
                        process_running))
     end)
    (fun _ => Some (ret None)).

Fixpoint for_pid_files (pid_files : list string) (tunnels : list tunnel_info)
  : M os (list tunnel_info) :=
  match pid_files with
  | [] => ret tunnels
  | pid_file :: rest =>
      r <- tunnel_entry pid_file ;;
      for_pid_files rest
        (match r with Some t => tunnels ++ [t] | None => tunnels end)
  end.

(** Lines 52-150. *)
Definition get_running_tunnels : M os (list tunnel_info) :=
  names <- listdir ;;
  let pid_files := List.filter (Py.endswith ".pid") names in
  for_pid_files pid_files [].

(** Lines 269-278. *)
Definition is_process_running_for_pid_file (pid_file : string) : M os bool :=
  e <- path_exists pid_file ;;
  if negb e then ret false
  else
    try_except
      (content <- read_file pid_file ;;
       pid <- py_int (Py.strip content) ;;
       is_process_running pid)
      (fun e =>
         match e with
         | ValueError => Some (ret false)
         | _ => if is_OSError e then Some (ret false) else None
         end).

(** Lines 175-180: the sanitized name.  [uuid] is the value of
    [uuid.uuid4()]. *)
Definition sanitize (uuid : N) (name : string) : string :=
  let sanitized_name := Re.sub_non_id name in
  match sanitized_name with
  | EmptyString => "app_" +:+ uuid_prefix uuid
  | _ => sanitized_name
  end.

(** Lines 162-173: [True] when port and protocol are accepted. *)
Definition valid_port (port : string) : bool :=
  match Py.int port with
  | Some port_int => negb ((port_int <? 1)%Z || (65535 <? port_int)%Z)
  | None => false
  end.

Definition valid_protocol (protocol : string) : bool :=
  bool_decide (protocol = "http") || bool_decide (protocol = "https").

(** Lines 198-201: the text of a descriptor, [now] being the value of
    [get_timestamp()]. *)
Definition config_text (now final_name port protocol : string) : string :=
  "NAME=" +:+ final_name +:+ "
" +:+ "PORT=" +:+ port +:+ "
" +:+ "PROTOCOL=" +:+ protocol +:+ "
" +:+ "START_TIME=" +:+ now +:+ "
".

(** Lines 160-267.  Lines 214-216 import [subprocess], [time] and [os]
    inside the function, which makes [os] a local variable of the whole
    body of [start_tunnel]: it is unbound until line 216 has run.  The first
    statement that reads it is line 183, which no [try] encloses, so an
    accepted port and protocol lead to [UnboundLocalError] there, after the
    name has been sanitized.  Lines 184-267 (name disambiguation, descriptor,
    spawn, poll, PID file, clean-up) are never executed and have no
    counterpart here. *)
Definition start_tunnel (uuid : N) (name port protocol : string) : M os bool :=
  if negb (valid_port port) then ret false
  else if negb (valid_protocol protocol) then ret false
  else
    let sanitized_name := sanitize uuid name in
    raise UnboundLocalError.

(** Lines 316-319. *)
Fixpoint wait_for_exit (n : nat) (pid : Z) : M os unit :=
  match n with
  | O => ret tt
  | S n' =>
      running <- is_process_running pid ;;
      if negb running then ret tt
      else sleep ;;; wait_for_exit n' pid
  end.

(** Lines 305-312 and 323-330: send [sig]; [True] when the signal was
    delivered or the process was already gone, [False] for the [return
    False] of the [PermissionError] clause. *)
Definition send_signal (pid : Z) (sig : signal) : M os bool :=
  try_except (kill pid sig ;;; ret true)
    (fun e =>
       match e with
       | ProcessLookupError => Some (ret true)
       | PermissionError => Some (ret false)
       | _ => None
       end).

(** Lines 280-349. *)
Definition stop_tunnel (tunnel_id : string) : M os bool :=
  let pid_file := pid_path tunnel_id in
  e <- path_exists pid_file ;;
  if negb e then ret false
  else
    try_except
      (content <- read_file pid_file ;;
       pid <- py_int (Py.strip content) ;;
       running <- is_process_running pid ;;
       if negb running then
         remove_file pid_file ;;;
         remove_config_if_exists tunnel_id ;;;
         ret true
       else
         sent <- send_signal pid SIGTERM ;;
         if negb sent then ret false
         else
           wait_for_exit 10 pid ;;;
           still <- is_process_running pid ;;
           killed <- (if still then send_signal pid SIGKILL else ret true) ;;
           if negb killed then ret false
           else
             remove_file pid_file ;;;
             remove_config_if_exists tunnel_id ;;;
             get_running_tunnels ;;;
             ret true)
      (fun e =>
         match e with
         | ValueError => Some (remove_file pid_file ;;; ret false)
         | _ => Some (ret false)
         end).

(** Lines 351-366.  [lines] is the parameter of that name, an integer; the
    log is read in text mode, line by line.  The [except] clause of lines
    365-366 answers a read that fails, which is the read of a log whose
    bytes do not decode; a file is a text here and no read fails, so the
    clause has no counterpart, and the properties of this method are stated
    for logs of ASCII text. *)
Definition get_tunnel_logs (tunnel_id : string) (lines : Z) : M os string :=
  log <- read_log (log_path tunnel_id) ;;
  match log with
  | None => ret ("Log file for tunnel " +:+ tunnel_id +:+ " does not exist")
  | Some content =>
      let all_lines := Py.lines content in
      let last_lines :=
        if (lines <=? Z.of_nat (List.length all_lines))%Z
        then Py.slice_from (- lines) all_lines
        else all_lines in
      ret (Py.join last_lines)
  end.

End Manager.

(** ** [TunnelsTab] *)

Section TunnelsTab.
Context {os : OS}.

(** Lines 529-531: the loop of [stop_all_tunnels]. *)
Fixpoint stop_each (tunnels : list tunnel_info) (stopped : nat) : M os nat :=
  match tunnels with
  | [] => ret stopped
  | tunnel :: rest =>
      ok <- stop_tunnel (t_id tunnel) ;;
      stop_each rest (if ok then S stopped else stopped)
  end.

(** Lines 525-535.  The value is the number [stopped] that the message box
    shows; [refresh_tunnels] lists the tunnels once more (line 413). *)
Definition stop_all_tunnels : M os nat :=
  tunnels <- get_running_tunnels ;;
  stopped <- stop_each tunnels 0 ;;
  get_running_tunnels ;;;
  ret stopped.

End TunnelsTab.

(** ** A simulated operating system

    One instance of [OS], used to run the methods on concrete inputs: a
    process table, the behaviour of the [cloudflared] binary when it is
    launched, and the next free pid. *)

Module Sim.

Record proc : Type := Proc {
  (** owned by another user: every signal is refused *)
  foreign : bool;
  (** reaction to SIGTERM: [None] ignores it, [Some n] exits [n] sleeps
      later ([Some 0]: at once) *)
  on_term : option nat;
  (** reaction to SIGKILL, in the same way ([None]: the process stays in
      the table, as a process in uninterruptible sleep does) *)
  on_kill : option nat;
  (** [Some n]: the process exits during the sleep after [n] more sleeps *)
  ttl : option nat
}.

Record state : Type := State {
  procs : gmap Z proc;
  binary : option proc;   (** [None]: [cloudflared] is not installed *)
  next_pid : Z
}.

Definition fits_pid_t (pid : Z) : bool :=
  ((- 2 ^ 31 <=? pid) && (pid <? 2 ^ 31))%Z.

Definition probe (s : state) (pid : Z) : kill_result :=
  if negb (fits_pid_t pid) then KillOverflow
  else match procs s !! pid with
       | None => KillNoProcess
       | Some p => if foreign p then KillPermission else KillOk
       end.

Definition reaction (p : proc) (sig : signal) : option nat :=
  match sig with SIGTERM => on_term p | SIGKILL => on_kill p end.

Definition signal (s : state) (pid : Z) (sig : signal)
  : kill_result * state :=
  match probe s pid with
  | KillOk =>
      match procs s !! pid with
      | Some p =>
          match reaction p sig with
          | None => (KillOk, s)
          | Some O =>
              (KillOk, State (delete pid (procs s)) (binary s) (next_pid s))
          | Some (S n) =>
              (KillOk,
               State (<[pid := Proc (foreign p) (on_term p) (on_kill p)
                                    (Some n)]> (procs s))
                     (binary s) (next_pid s))
          end
      | None => (KillNoProcess, s)
      end
  | r => (r, s)
  end.

Definition age (p : proc) : option proc :=
  match ttl p with
  | None => Some p
  | Some O => None
  | Some (S n) => Some (Proc (foreign p) (on_term p) (on_kill p) (Some n))
  end.

Definition sleep (s : state) : state :=
  State (omap age (procs s)) (binary s) (next_pid s).

Definition popen (s : state) (url : string) : popen_result * state :=
  match binary s with
  | None => (PopenRaises FileNotFoundError, s)
  | Some p =>
      (Spawned (next_pid s),
       State (<[next_pid s := p]> (procs s)) (binary s) (next_pid s + 1))
  end.

Definition poll (s : state) (pid : Z) : option Z * state :=
  match procs s !! pid with
  | Some _ => (None, s)
  | None => (Some 0%Z, s)
  end.

Definition os : OS :=
  {| ostate := state;
     os_probe := probe;
     os_signal := signal;
     os_sleep := sleep;
     os_popen := popen;
     os_poll := poll |}.

(** A tunnel process that runs until it is told to stop. *)
Definition healthy : proc := Proc false (Some 0) (Some 0) None.
(** A binary that exits right after it was launched. *)
Definition short_lived : proc := Proc false (Some 0) (Some 0) (Some 0).
(** A process that outlives both signals. *)
Definition stubborn : proc := Proc false None None None.
(** A process of another user. *)
Definition alien : proc := Proc true (Some 0) (Some 0) None.

Definition boot (table : list (Z * proc)) (bin : option proc) (next : Z)
  : state := State (list_to_map table) bin next.

Definition mk_world (files : list (string * string))
    (log_files : list (string * string)) (s : state) : world os :=
  @World os (list_to_map files) (list_to_map log_files) s.

(** What a run leaves behind, in a form that can be compared: the value,
    the files of the directory, the effects. *)
Definition observe {A} (out : result A * world os * list event)
  : result A * list (string * string) * list event :=
  (out.1.1, map_to_list (dir out.1.2), out.2).

End Sim.

(** ** Inputs for runs on the simulated operating system *)

Module Scenario.

Definition now : string := "2025-01-01 00:00:00".

Definition descriptor (tunnel_id : string) : string * string :=
  (config_path tunnel_id, config_text now tunnel_id "3000" "http").

(** An empty directory; [bin] is what [cloudflared] does when launched. *)
Definition fresh (bin : option Sim.proc) : world Sim.os :=
  Sim.mk_world [] [] (Sim.boot [] bin 100).

(** [start_tunnel(name, "3000", "http")] *)
Definition start (name : string) : M Sim.os bool :=
  start_tunnel 0 name "3000" "http".

(** A PID file of the base name whose process is gone. *)
Definition dead_base : world Sim.os :=
  Sim.mk_world [("svc.pid", "4242")] [] (Sim.boot [] (Some Sim.healthy) 100).

(** The running tunnel [x] with its two files, and next to them a PID
    file whose stem [x.pid] contains [.pid], with the descriptor of that
    stem; this PID file holds no integer. *)
Definition stray : world Sim.os :=
  Sim.mk_world
    [("x.pid", "7"); descriptor "x"; ("x.pid.pid", "abc"); descriptor "x.pid"]
    [] (Sim.boot [(7%Z, Sim.healthy)] (Some Sim.healthy) 100).

(** Process 1 belongs to another user, there is no process 2. *)
Definition foreign_process : world Sim.os :=
  Sim.mk_world [] [] (Sim.boot [(1%Z, Sim.alien)] (Some Sim.healthy) 100).

(** The world [w] after the process [pid] has died. *)
Definition crash (pid : Z) (w : world Sim.os) : world Sim.os :=
  let s : Sim.state := ost w in
  @World Sim.os (dir w) (logs w)
    (Sim.State (delete pid (Sim.procs s)) (Sim.binary s) (Sim.next_pid s)).

(** A PID file that holds no integer, and its descriptor. *)
Definition corrupt : world Sim.os :=
  Sim.mk_world [("t.pid", "abc"); descriptor "t"] []
    (Sim.boot [] (Some Sim.healthy) 100).

(** A tunnel whose process runs and obeys SIGTERM. *)
Definition running : world Sim.os :=
  Sim.mk_world [("t.pid", "7"); descriptor "t"] []
    (Sim.boot [(7%Z, Sim.healthy)] (Some Sim.healthy) 100).

(** A tunnel whose process outlives SIGTERM and SIGKILL. *)
Definition unkillable : world Sim.os :=
  Sim.mk_world [("t.pid", "7"); descriptor "t"] []
    (Sim.boot [(7%Z, Sim.stubborn)] (Some Sim.healthy) 100).

(** A PID file whose number is no pid of the system. *)
Definition oversized : world Sim.os :=
  Sim.mk_world [("t.pid", "99999999999"); descriptor "t"] []
    (Sim.boot [] (Some Sim.healthy) 100).

(** A log that shows two public URLs. *)
Definition log_text : string :=
  "INF starting
INF https://old-name.trycloudflare.com
ERR retry
INF https://new-name.trycloudflare.com
".

(** The running tunnel [t] with that log. *)
Definition published : world Sim.os :=
  Sim.mk_world [("t.pid", "7"); descriptor "t"] [("t.log", log_text)]
    (Sim.boot [(7%Z, Sim.healthy)] (Some Sim.healthy) 100).

(** A running tunnel that has lost its descriptor and has that log. *)
Definition orphan : world Sim.os :=
  Sim.mk_world [("svc.pid", "4242")] [("svc.log", log_text)]
    (Sim.boot [(4242%Z, Sim.healthy)] (Some Sim.healthy) 100).

End Scenario.

(** ** Notions used in the properties *)

(** What [is_process_running] makes of the answer of the probe. *)
Definition probe_value (r : kill_result) : result bool :=
  match r with
  | KillOk => Ok true
  | KillNoProcess | KillPermission | KillOSError => Ok false
  | KillOverflow => Raise OverflowError
  end.

(** What [send_signal] makes of the answer to a signal. *)
Definition signal_value (r : kill_result) : result bool :=
  match r with
  | KillOk | KillNoProcess => Ok true
  | KillPermission => Ok false
  | KillOSError => Raise OSError
  | KillOverflow => Raise OverflowError
  end.

(** [respects R E m]: whatever the world, running [m] takes it to a world
    related to it by [R] and performs effects that all satisfy [E]. *)
Definition respects {os : OS} (R : world os -> world os -> Prop)
    (E : event -> Prop) {A} (m : M os A) : Prop :=
  forall w, R w (m w).1.2 /\ Forall E (m w).2.

(** [halts m]: [m] never uses up an iteration bound. *)
Definition halts {os : OS} {A} (m : M os A) : Prop :=
  forall w, (m w).1.1 <> Diverge.

(** [returns m]: [m] always ends with a value. *)
Definition returns {os : OS} {A} (m : M os A) : Prop :=
  forall w, exists a, (m w).1.1 = Ok a.

(** The effects of a listing: probes and removals only. *)
Definition listing_event (e : event) : Prop :=
  match e with
  | EvProbe _ _ | EvRemove _ => True
  | _ => False
  end.

(** A listing only removes files of the directory. *)
Definition shrinks {os : OS} (w w' : world os) : Prop :=
  dir w' ⊆ dir w /\ logs w' = logs w /\ ost w' = ost w.

(** The effects of the name disambiguation: probes only. *)
Definition probe_event (e : event) : Prop :=
  match e with
  | EvProbe _ _ => True
  | _ => False
  end.

(** What is left when both files of [tunnel_id] are removed. *)
Definition purged (tunnel_id : string) (d : gmap string string)
  : gmap string string :=
  delete (config_path tunnel_id) (delete (pid_path tunnel_id) d).

(** The PID file of [tunnel_id] is absent or holds an integer. *)
Definition pid_record_parses {os : OS} (tunnel_id : string) (w : world os)
  : bool :=
  match dir w !! pid_path tunnel_id with
  | Some c =>
      match Py.int (Py.strip c) with Some _ => true | None => false end
  | None => true
  end.

(** A non-empty string over [[A-Za-z0-9_-]]. *)
Definition valid_id (s : string) : Prop :=
  s <> "" /\ Py.str_all Re.is_id_char s = true.

(** A text of ASCII characters.  Such a file decodes to these characters,
    whatever the encoding of the locale. *)
Definition ascii_text (s : string) : bool :=
  Py.str_all (fun c => (Py.ord c <? 128)%N) s.

(** Every file of the directory is a text of ASCII characters. *)
Definition ascii_files (d : gmap string string) : bool :=
  forallb (fun file => ascii_text file.2) (map_to_list d).

(** A file that is created has a valid tunnel id as its stem. *)
Definition valid_stem_event (e : event) : Prop :=
  match e with
  | EvWrite path _ =>
      exists id, valid_id id /\ (path = config_path id \/ path = pid_path id)
  | EvOpenLog name => exists id, valid_id id /\ name = log_path id
  | _ => True
  end.

(** The match of which no later position of the text holds a match. *)
Definition last_match_of (content m : string) : Prop :=
  exists pre post,
    content = pre +:+ m +:+ post
    /\ Re.match_url (m +:+ post) = Some m
    /\ forall n, 0 < n -> Re.match_url (Py.drop n (m +:+ post)) = None.

(** The content of a PID file that the listing purges: no integer, or the
    pid of a process that the probe reports as not running. *)
Definition stale_content {os : OS} (w : world os) (content : string) : Prop :=
  match Py.int (Py.strip content) with
  | None => True
  | Some pid => probe_value (os_probe os (ost w) pid) = Ok false
  end.

(** The content of a PID file of a running tunnel. *)
Definition live_content {os : OS} (w : world os) (content : string) (pid : Z)
  : Prop :=
  Py.int (Py.strip content) = Some pid /\ os_probe os (ost w) pid = KillOk.

(** Every PID file is named [<id>.pid] for the id that line 70 computes
    from its name. *)
Definition stems_well_formed (d : gmap string string) : Prop :=
  forall f, is_Some (d !! f) -> Py.endswith ".pid" f = true ->
            f = pid_path (Py.replace ".pid" "" f).

(** The descriptor of [tunnel_id] as lines 100-118 read it in the
    directory [d]. *)
Definition config_of (d : gmap string string) (tunnel_id : string) : config :=
  let cfg := Config tunnel_id "3000" "http" in
  match d !! config_path tunnel_id with
  | Some content => fold_left read_config_line (Py.lines content) cfg
  | None => cfg
  end.

(** The entry that lines 99-143 build for the tunnel [tunnel_id] whose
    process [pid] is running, from the directory [d] and the logs [l]. *)
Definition entry_of (d l : gmap string string) (tunnel_id : string) (pid : Z)
  : tunnel_info :=
  let cfg := config_of d tunnel_id in
  TunnelInfo tunnel_id (c_name cfg) (c_port cfg) (c_protocol cfg) (Py.str pid)
    (match l !! log_path tunnel_id with
     | Some content => public_url_of content
     | None => ""
     end)
    true.

(** The content of a PID file whose probe ends with [OverflowError]: the
    listing skips the file. *)
Definition unprobed_content {os : OS} (w : world os) (content : string)
  : Prop :=
  exists pid,
    Py.int (Py.strip content) = Some pid
    /\ os_probe os (ost w) pid = KillOverflow.

(** No white space in the text. *)
Definition no_space (s : string) : bool :=
  Py.str_all (fun c => negb (Py.is_space c)) s.

(** No line break in the text: neither a line feed nor a carriage return,
    which reading in text mode turns into a line feed. *)
Definition single_line (s : string) : bool :=
  Py.str_all (fun c => negb ((Py.ord c =? 10)%N || (Py.ord c =? 13)%N)) s.

(** A text without CR: text mode reads it as it is. *)
Definition no_cr (s : string) : bool :=
  Py.str_all (fun c => negb (Py.ord c =? 13)%N) s.

(** The next character is not LF. *)
Definition no_lf_ahead (s : string) : Prop :=
  match s with
  | String d _ => (Py.ord d =? 10)%N = false
  | EmptyString => True
  end.

(** The pid that the PID file of [tunnel_id] records, when the file exists
    and holds an integer. *)
Definition recorded_pid {os : OS} (w : world os) (tunnel_id : string)
  : option Z :=
  match dir w !! pid_path tunnel_id with
  | Some c => Py.int (Py.strip c)
  | None => None
  end.

(** What [stop_tunnel] may do when the PID file records [recorded]: probe,
    sleep, remove files, and signal the recorded process. *)
Definition stop_event (recorded : option Z) (e : event) : Prop :=
  match e with
  | EvSignal pid _ _ => recorded = Some pid
  | EvProbe _ _ | EvRemove _ | EvSleep => True
  | _ => False
  end.

(** The number of calls of [time.sleep] in a trace. *)
Definition sleeps (t : list event) : nat :=
  List.length
    (List.filter (fun e => match e with EvSleep => true | _ => false end) t).

(** The signal [sig] is not sent in the trace. *)
Definition never_sends (sig : signal) (t : list event) : Prop :=
  forall pid r, ~ In (EvSignal pid sig r) t.

(** * Properties *)

(** ** Strings and paths *)

Lemma string_app_cons c a b : String c a +:+ b = String c (a +:+ b).
Proof. reflexivity. Qed.

Lemma string_app_assoc a b c : (a +:+ b) +:+ c = a +:+ (b +:+ c).
Proof.
  induction a as [|x a IH]; [done|].
  rewrite !string_app_cons. by rewrite IH.
Qed.

Lemma string_length_app a b :
  String.length (a +:+ b) = String.length a + String.length b.
Proof. induction a as [|c a IH]; simpl; [done|]. by rewrite IH. Qed.

Lemma string_app_inj_r a b s : a +:+ s = b +:+ s -> a = b.
Proof.
  revert b. induction a as [|c a IH]; intros [|c' b] H.
  - done.
  - apply (f_equal String.length) in H.
    rewrite !string_length_app in H. simpl in H. lia.
  - apply (f_equal String.length) in H.
    rewrite !string_length_app in H. simpl in H. lia.
  - injection H as -> H. f_equal. by apply IH.
Qed.

Lemma app_not_empty_l a b : a <> "" -> a +:+ b <> "".
Proof. destruct a; simpl; [done|discriminate]. Qed.

Lemma prefix_app p : forall s,
  String.prefix p s = true -> exists r, s = p +:+ r.
Proof.
  induction p as [|a p IH]; intros s H.
  - by exists s.
  - destruct s as [|b s]; simpl in H; [done|].
    destruct (ascii_dec a b) as [->|]; [|done].
    destruct (IH s H) as [r ->]. by exists r.
Qed.

Lemma drop_app a b : Py.drop (String.length a) (a +:+ b) = b.
Proof. induction a as [|c a IH]; simpl; [by destruct b|done]. Qed.

Lemma drop_drop n : forall m s, Py.drop n (Py.drop m s) = Py.drop (m + n) s.
Proof.
  intros m. revert n. induction m as [|m IH]; intros n s; [done|].
  destruct s as [|c s]; simpl; [by destruct n|]. apply IH.
Qed.

Lemma str_all_app p a b :
  Py.str_all p (a +:+ b) = Py.str_all p a && Py.str_all p b.
Proof.
  induction a as [|c a IH]; simpl; [done|].
  rewrite IH. by rewrite andb_assoc.
Qed.

Lemma str_all_impl (p q : ascii -> bool) s :
  (forall c, p c = true -> q c = true) ->
  Py.str_all p s = true -> Py.str_all q s = true.
Proof.
  intros Hpq. induction s as [|c s IH]; simpl; [done|].
  rewrite !andb_true_iff. intros [? ?]. auto.
Qed.

Lemma pid_path_ne_config_path a b : pid_path a <> config_path b.
Proof.
  unfold pid_path, config_path. revert b.
  induction a as [|x a IH]; intros [|y b]; simpl; try discriminate.
  - intros [= _ Hb]. destruct b as [|? [|? [|? [|? ?]]]]; discriminate.
  - intros [= _ Ha]. destruct a as [|? [|? [|? [|? [|? [|? [|? ?]]]]]]];
      discriminate.
  - intros [= _ Hab]. by eapply IH.
Qed.

Lemma endswith_app suf a : Py.endswith suf (a +:+ suf) = true.
Proof.
  induction a as [|c a IH].
  - change ("" +:+ suf) with suf.
    destruct suf as [|c s]; [done|].
    unfold Py.endswith. by rewrite String.eqb_refl.
  - rewrite string_app_cons. simpl. rewrite IH.
    by repeat case_match.
Qed.

(** ** Equations of the small methods *)

Create HintDb tunnel discriminated.

Section Equations.
Context {os : OS}.
Implicit Types (w : world os) (pid : Z).

Lemma is_process_running_eq pid w :
  is_process_running pid w
  = (probe_value (os_probe os (ost w) pid), w,
     [EvProbe pid (os_probe os (ost w) pid)]).
Proof.
  unfold is_process_running, try_except, bind, kill0, ret.
  destruct (os_probe os (ost w) pid); reflexivity.
Qed.

Lemma send_signal_eq pid sig w :
  send_signal pid sig w
  = (signal_value (os_signal os (ost w) pid sig).1,
     World (dir w) (logs w) (os_signal os (ost w) pid sig).2,
     [EvSignal pid sig (os_signal os (ost w) pid sig).1]).
Proof.
  unfold send_signal, try_except, bind, kill, ret.
  destruct (os_signal os (ost w) pid sig) as [[] o]; reflexivity.
Qed.

Lemma remove_config_if_exists_eq tunnel_id w :
  remove_config_if_exists tunnel_id w
  = (Ok tt, World (delete (config_path tunnel_id) (dir w)) (logs w) (ost w),
     match dir w !! config_path tunnel_id with
     | Some _ => [EvRemove (config_path tunnel_id)]
     | None => []
     end).
Proof.
  unfold remove_config_if_exists, bind, path_exists, remove_file, ret.
  destruct (dir w !! config_path tunnel_id) as [c|] eqn:E; simpl.
  - rewrite E. reflexivity.
  - rewrite delete_id by exact E. destruct w; reflexivity.
Qed.

Lemma bind_unfold {A B} (m : M os A) (k : A -> M os B) w :
  bind m k w
  = match m w with
    | (Ok a, w1, t1) =>
        match k a w1 with
        | (r, w2, t2) => (r, w2, t1 ++ t2)
        end
    | (Raise e, w1, t1) => (Raise e, w1, t1)
    | (Diverge, w1, t1) => (Diverge, w1, t1)
    end.
Proof. reflexivity. Qed.

Lemma try_except_unfold {A} (m : M os A) (h : exn -> option (M os A)) w :
  try_except m h w
  = match m w with
    | (Raise e, w1, t1) =>
        match h e with
        | Some k =>
            match k w1 with
            | (r, w2, t2) => (r, w2, t1 ++ t2)
            end
        | None => (Raise e, w1, t1)
        end
    | out => out
    end.
Proof. reflexivity. Qed.

End Equations.

(** Run a computation symbolically: expose the next statement, replace the
    small methods by their equations, reduce. *)
Ltac reduce_run :=
  cbn beta iota zeta delta
    [dir logs ost negb fst snd probe_value signal_value kill_exn].

(** Use what the context says about the answers of the world. *)
Ltac use_facts :=
  repeat match goal with
         | H : ?f ?a = _ |- context [?f ?a] => rewrite H
         end.

Create HintDb run discriminated.

#[global] Hint Unfold bind try_except ret raise diverge path_exists read_file
  write_file remove_file open_log read_log listdir sleep popen poll kill0 kill
  py_int : run.

Ltac exec :=
  repeat (progress
            (autounfold with run;
             try rewrite is_process_running_eq;
             try rewrite send_signal_eq;
             try rewrite remove_config_if_exists_eq;
             use_facts; reduce_run)).

(** ** Invariants of computations *)

Section Respects.
Context {os : OS}.
Variable R : world os -> world os -> Prop.
Variable E : event -> Prop.
Context `{!PreOrder R}.

Lemma respects_ret {A} (a : A) : respects R E (ret a).
Proof. intros w. simpl. split; [reflexivity|constructor]. Qed.

Lemma respects_raise {A} (e : exn) : respects R E (@raise os A e).
Proof. intros w. simpl. split; [reflexivity|constructor]. Qed.

Lemma respects_diverge {A} : respects R E (@diverge os A).
Proof. intros w. simpl. split; [reflexivity|constructor]. Qed.

Lemma respects_bind {A B} (m : M os A) (k : A -> M os B) :
  respects R E m -> (forall a, respects R E (k a)) -> respects R E (bind m k).
Proof.
  intros Hm Hk w. unfold bind. specialize (Hm w).
  destruct (m w) as [[[a|e|] w1] t1]; simpl in *; try done.
  specialize (Hk a w1). destruct (k a w1) as [[r w2] t2]; simpl in *.
  destruct Hm, Hk. split; [by etrans|]. by apply Forall_app.
Qed.

Lemma respects_try {A} (m : M os A) (h : exn -> option (M os A)) :
  respects R E m -> (forall e k, h e = Some k -> respects R E k) ->
  respects R E (try_except m h).
Proof.
  intros Hm Hh w. unfold try_except. specialize (Hm w).
  destruct (m w) as [[[a|e|] w1] t1]; simpl in *; try done.
  destruct (h e) as [k|] eqn:Ek; simpl; [|done].
  specialize (Hh e k Ek w1). destruct (k w1) as [[r w2] t2]; simpl in *.
  destruct Hm, Hh. split; [by etrans|]. by apply Forall_app.
Qed.

Lemma respects_path_exists name : respects R E (path_exists name).
Proof. intros w. simpl. split; [reflexivity|constructor]. Qed.

Lemma respects_read_file name : respects R E (read_file name).
Proof.
  intros w. unfold read_file.
  destruct (dir w !! name); simpl; (split; [reflexivity|constructor]).
Qed.

Lemma respects_read_log name : respects R E (read_log name).
Proof. intros w. simpl. split; [reflexivity|constructor]. Qed.

Lemma respects_listdir : respects R E listdir.
Proof. intros w. simpl. split; [reflexivity|constructor]. Qed.

Lemma respects_py_int s : respects R E (py_int s).
Proof.
  intros w. unfold py_int.
  destruct (Py.int s); simpl; (split; [reflexivity|constructor]).
Qed.

Lemma respects_is_process_running pid :
  (forall r, E (EvProbe pid r)) -> respects R E (is_process_running pid).
Proof.
  intros HE w. rewrite is_process_running_eq. simpl.
  split; [reflexivity|]. by repeat constructor.
Qed.

End Respects.

#[global] Hint Extern 1 (respects _ _ (ret _)) =>
  apply respects_ret; apply _ : tunnel.
#[global] Hint Extern 1 (respects _ _ (raise _)) =>
  apply respects_raise; apply _ : tunnel.
#[global] Hint Extern 1 (respects _ _ diverge) =>
  apply respects_diverge; apply _ : tunnel.
#[global] Hint Extern 1 (respects _ _ (path_exists _)) =>
  apply respects_path_exists; apply _ : tunnel.
#[global] Hint Extern 1 (respects _ _ (read_file _)) =>
  apply respects_read_file; apply _ : tunnel.
#[global] Hint Extern 1 (respects _ _ (read_log _)) =>
  apply respects_read_log; apply _ : tunnel.
#[global] Hint Extern 1 (respects _ _ listdir) =>
  apply respects_listdir; apply _ : tunnel.
#[global] Hint Extern 1 (respects _ _ (py_int _)) =>
  apply respects_py_int; apply _ : tunnel.

(** Repeatedly split a computation along its structure. *)
Ltac respects_step :=
  match goal with
  | |- respects _ _ (bind _ _) => apply respects_bind; [apply _| |intros ?]
  | |- respects _ _ (try_except _ _) =>
      apply respects_try; [apply _| |intros ? ? ?]
  | |- respects _ _ (if ?b then _ else _) => destruct b
  | |- respects _ _ (match ?x with _ => _ end) => destruct x
  | H : match ?e with _ => _ end = Some _ |- _ => destruct e; try discriminate
  | H : (if ?b then _ else _) = Some _ |- _ => destruct b; try discriminate
  | H : Some _ = Some _ |- _ => injection H as <-
  end.

(** ** Computations that end *)

Section Halts.
Context {os : OS}.

Lemma returns_halts {A} (m : M os A) : returns m -> halts m.
Proof. intros Hm w. destruct (Hm w) as [a ->]. done. Qed.

Lemma returns_ret {A} (a : A) : returns (@ret os A a).
Proof. intros w. by exists a. Qed.

Lemma halts_raise {A} (e : exn) : halts (@raise os A e).
Proof. intros w. done. Qed.

Lemma halts_bind {A B} (m : M os A) (k : A -> M os B) :
  halts m -> (forall a, halts (k a)) -> halts (bind m k).
Proof.
  intros Hm Hk w. unfold bind. specialize (Hm w).
  destruct (m w) as [[[a|e|] w1] t1]; simpl in *; try done.
  specialize (Hk a w1). by destruct (k a w1) as [[r w2] t2].
Qed.

Lemma returns_bind {A B} (m : M os A) (k : A -> M os B) :
  returns m -> (forall a, returns (k a)) -> returns (bind m k).
Proof.
  intros Hm Hk w. unfold bind. destruct (Hm w) as [a Ha].
  destruct (m w) as [[r w1] t1]; simpl in *; subst r.
  destruct (Hk a w1) as [b Hb]. destruct (k a w1) as [[r w2] t2]. eauto.
Qed.

Lemma halts_try {A} (m : M os A) (h : exn -> option (M os A)) :
  halts m -> (forall e k, h e = Some k -> halts k) -> halts (try_except m h).
Proof.
  intros Hm Hh w. unfold try_except. specialize (Hm w).
  destruct (m w) as [[[a|e|] w1] t1]; simpl in *; try done.
  destruct (h e) as [k|] eqn:Ek; simpl; [|done].
  specialize (Hh e k Ek w1). by destruct (k w1) as [[r w2] t2].
Qed.

(** A [try] whose clauses catch every exception and return. *)
Lemma returns_try {A} (m : M os A) (h : exn -> option (M os A)) :
  halts m -> (forall e, exists k, h e = Some k /\ returns k) ->
  returns (try_except m h).
Proof.
  intros Hm Hh w. unfold try_except. specialize (Hm w).
  destruct (m w) as [[[a|e|] w1] t1]; simpl in *; try done; eauto.
  destruct (Hh e) as (k & -> & Hk). destruct (Hk w1) as [b Hb].
  destruct (k w1) as [[r w2] t2]. eauto.
Qed.

Lemma returns_path_exists name : returns (@path_exists os name).
Proof. intros w. simpl. eauto. Qed.

Lemma halts_read_file name : halts (@read_file os name).
Proof. intros w. unfold read_file. by destruct (dir w !! name). Qed.

Lemma halts_remove_file name : halts (@remove_file os name).
Proof. intros w. unfold remove_file. by destruct (dir w !! name). Qed.

Lemma returns_read_log name : returns (@read_log os name).
Proof. intros w. simpl. eauto. Qed.

Lemma returns_listdir : returns (@listdir os).
Proof. intros w. simpl. eauto. Qed.

Lemma halts_py_int s : halts (@py_int os s).
Proof. intros w. unfold py_int. by destruct (Py.int s). Qed.

Lemma halts_is_process_running pid : halts (@is_process_running os pid).
Proof.
  intros w. rewrite is_process_running_eq. simpl.
  by destruct (os_probe os (ost w) pid).
Qed.

Lemma returns_remove_config tunnel_id :
  returns (@remove_config_if_exists os tunnel_id).
Proof. intros w. rewrite remove_config_if_exists_eq. simpl. eauto. Qed.

End Halts.

#[global] Hint Resolve returns_halts returns_ret halts_raise
  returns_path_exists halts_read_file halts_remove_file returns_read_log
  returns_listdir halts_py_int halts_is_process_running
  returns_remove_config : tunnel.

Ltac halts_step :=
  match goal with
  | |- halts (bind _ _) => apply halts_bind; [|intros ?]
  | |- halts (try_except _ _) => apply halts_try; [|intros ? ? ?]
  | |- returns (bind _ _) => apply returns_bind; [|intros ?]
  | |- halts (if ?b then _ else _) => destruct b
  | |- halts (match ?x with _ => _ end) => destruct x
  | |- returns (if ?b then _ else _) => destruct b
  | |- returns (match ?x with _ => _ end) => destruct x
  | H : match ?e with _ => _ end = Some _ |- _ => destruct e; try discriminate
  | H : (if ?b then _ else _) = Some _ |- _ => destruct b; try discriminate
  | H : Some _ = Some _ |- _ => injection H as <-
  end.

(** ** The listing *)

Section Listing.
Context {os : OS}.

#[global] Instance shrinks_preorder : PreOrder (@shrinks os).
Proof.
  split.
  - by intros w.
  - intros w1 w2 w3 (? & ? & ?) (? & ? & ?).
    split; [by etrans|]. split; congruence.
Qed.

Abbreviation listing := (respects (@shrinks os) listing_event).

Lemma listing_remove_file name : listing (remove_file name).
Proof.
  intros w. unfold remove_file.
  destruct (dir w !! name); simpl.
  - split; [|by repeat constructor].
    split; [apply delete_subseteq|done].
  - done.
Qed.

Lemma listing_remove_config tunnel_id :
  listing (remove_config_if_exists tunnel_id).
Proof.
  intros w. rewrite remove_config_if_exists_eq. simpl. split.
  - split; [apply delete_subseteq|done].
  - destruct (dir w !! config_path tunnel_id); by repeat constructor.
Qed.

Lemma listing_is_process_running pid : listing (is_process_running pid).
Proof. apply respects_is_process_running; [apply _|]. intros r. exact I. Qed.

Local Hint Resolve listing_remove_file listing_remove_config
  listing_is_process_running : tunnel.

Lemma listing_read_config tunnel_id : listing (read_config tunnel_id).
Proof.
  unfold read_config.
  repeat (respects_step; eauto with tunnel).
Qed.

Lemma listing_read_public_url tunnel_id : listing (read_public_url tunnel_id).
Proof.
  unfold read_public_url.
  repeat (respects_step; eauto with tunnel).
Qed.

Local Hint Resolve listing_read_config listing_read_public_url : tunnel.

Lemma listing_tunnel_entry pid_file : listing (tunnel_entry pid_file).
Proof.
  unfold tunnel_entry.
  repeat (respects_step; eauto with tunnel).
Qed.

Lemma listing_for_pid_files pid_files :
  forall tunnels, listing (for_pid_files pid_files tunnels).
Proof.
  induction pid_files as [|f rest IH]; intros tunnels; simpl.
  - auto with tunnel.
  - respects_step; eauto using listing_tunnel_entry.
Qed.

Lemma listing_get_running_tunnels : listing get_running_tunnels.
Proof.
  unfold get_running_tunnels.
  respects_step; eauto using listing_for_pid_files with tunnel.
Qed.

Lemma returns_read_config tunnel_id : returns (@read_config os tunnel_id).
Proof.
  intros w. unfold read_config, bind, path_exists, read_file, ret.
  destruct (dir w !! config_path tunnel_id) as [c|] eqn:Ec; simpl.
  - rewrite Ec. eauto.
  - eauto.
Qed.

Lemma returns_read_public_url tunnel_id :
  returns (@read_public_url os tunnel_id).
Proof. unfold read_public_url. repeat (halts_step; eauto with tunnel). Qed.

Lemma returns_tunnel_entry pid_file : returns (@tunnel_entry os pid_file).
Proof.
  unfold tunnel_entry. apply returns_try.
  - repeat (halts_step;
            eauto using returns_read_config, returns_read_public_url
              with tunnel).
  - intros e. eauto with tunnel.
Qed.

Lemma returns_for_pid_files pid_files :
  forall tunnels, returns (@for_pid_files os pid_files tunnels).
Proof.
  induction pid_files as [|f rest IH]; intros tunnels; simpl.
  - auto with tunnel.
  - halts_step; eauto using returns_tunnel_entry.
Qed.

Lemma returns_get_running_tunnels : returns (@get_running_tunnels os).
Proof.
  unfold get_running_tunnels.
  halts_step; eauto using returns_for_pid_files with tunnel.
Qed.

(** The listing never raises, leaves the logs and the process table as
    they are, and only removes files. *)
Lemma get_running_tunnels_spec (w : world os) :
  exists r d t,
    get_running_tunnels w = (Ok r, World d (logs w) (ost w), t)
    /\ d ⊆ dir w /\ Forall listing_event t.
Proof.
  destruct (returns_get_running_tunnels w) as [r Hr].
  destruct (listing_get_running_tunnels w) as [(Hd & Hl & Ho) Ht].
  destruct (get_running_tunnels w) as [[r' [d l o]] t]; simpl in *.
  subst. eauto 6.
Qed.

End Listing.

(** ** The listing of a well-formed directory *)

Section Reconciliation.
Context {os : OS}.
Implicit Types (w : world os).

Lemma read_config_run tunnel_id w :
  exists cfg, read_config tunnel_id w = (Ok cfg, w, []).
Proof.
  unfold read_config. exec.
  destruct (dir w !! config_path tunnel_id) as [c|] eqn:E; exec; eauto.
Qed.

Lemma read_public_url_run tunnel_id w :
  exists url, read_public_url tunnel_id w = (Ok url, w, []).
Proof.
  unfold read_public_url. exec.
  destruct (logs w !! log_path tunnel_id); eauto.
Qed.

Lemma tunnel_entry_run pid_file d l (o : ostate os) c :
  d !! pid_file = Some c ->
  let w := World d l o in
  let tunnel_id := Py.replace ".pid" "" pid_file in
  exists r d' t,
    tunnel_entry pid_file w = (Ok r, World d' l o, t)
    /\ (d' = d \/ d' = delete (config_path tunnel_id) (delete pid_file d))
    /\ (stale_content w c ->
        r = None /\ d' = delete (config_path tunnel_id) (delete pid_file d))
    /\ (forall info, r = Some info ->
        t_id info = tunnel_id
        /\ exists pid, live_content w c pid /\ t_pid info = Py.str pid).
Proof.
  intros Hc. cbv zeta. unfold stale_content, live_content, tunnel_entry.
  cbn [ost]. exec.
  destruct (Py.int (Py.strip c)) as [pid|] eqn:Hi; exec.
  - destruct (os_probe os o pid) eqn:Hp; exec.
    + destruct (read_config_run (Py.replace ".pid" "" pid_file) (World d l o))
        as [cfg Hcfg].
      rewrite Hcfg. exec.
      destruct (read_public_url_run (Py.replace ".pid" "" pid_file)
                  (World d l o)) as [url Hurl].
      rewrite Hurl. exec.
      eexists _, _, _. split; [reflexivity|]. split; [by left|].
      split; [done|]. intros info [= <-]. simpl. eauto.
    + eexists _, _, _. split; [reflexivity|]. split; [by right|]. by split.
    + eexists _, _, _. split; [reflexivity|]. split; [by right|]. by split.
    + eexists _, _, _. split; [reflexivity|]. split; [by right|]. by split.
    + eexists _, _, _. split; [reflexivity|]. split; [by left|]. by split.
  - eexists _, _, _. split; [reflexivity|]. split; [by right|]. by split.
Qed.

(** The loop over the PID files [fs] of a well-formed directory [d0],
    entered in a directory [d] in which these files are still as in
    [d0]. *)
Lemma for_pid_files_run (d0 : gmap string string) l (o : ostate os) fs :
  forall tunnels d,
  stems_well_formed d0 ->
  NoDup fs ->
  (forall f, f ∈ fs ->
     Py.endswith ".pid" f = true /\ is_Some (d0 !! f) /\ d !! f = d0 !! f) ->
  let w0 := World d0 l o in
  exists ts d' t,
    for_pid_files fs tunnels (World d l o)
    = (Ok (tunnels ++ ts), World d' l o, t)
    /\ d' ⊆ d
    /\ (forall f c, f ∈ fs -> d0 !! f = Some c -> stale_content w0 c ->
          d' !! f = None /\ d' !! config_path (Py.replace ".pid" "" f) = None)
    /\ (forall info, info ∈ ts ->
          exists f c pid,
            f ∈ fs /\ t_id info = Py.replace ".pid" "" f
            /\ d0 !! f = Some c /\ live_content w0 c pid
            /\ t_pid info = Py.str pid).
Proof.
  induction fs as [|f fs IH]; intros tunnels d Hwf Hnd Hfs; cbv zeta.
  - exists [], d, []. simpl. rewrite app_nil_r. split; [done|].
    split; [done|]. split.
    + intros f c Hf. by apply elem_of_nil in Hf.
    + intros info Hin. by apply elem_of_nil in Hin.
  - apply NoDup_cons in Hnd as [Hf Hnd].
    destruct (Hfs f) as (Hend & [c Hc0] & Hc); [by left|].
    rewrite Hc0 in Hc.
    destruct (tunnel_entry_run f d l o c Hc)
      as (r & d1 & t1 & Hrun & Hd1 & Hstale & Hlive).
    assert (d1 ⊆ d) as Hsub.
    { destruct Hd1 as [->| ->]; [done|]. etrans; apply delete_subseteq. }
    assert (forall f', f' ∈ fs ->
              Py.endswith ".pid" f' = true /\ is_Some (d0 !! f')
              /\ d1 !! f' = d0 !! f') as Hfs'.
    { intros f' Hf'. destruct (Hfs f') as (He & Hs & Heq); [by right|].
      split; [done|]. split; [done|]. rewrite <- Heq.
      destruct Hd1 as [->| ->]; [done|].
      rewrite lookup_delete_ne, lookup_delete_ne; [done| |].
      - intros ->. done.
      - rewrite (Hwf f' Hs He). apply not_eq_sym, pid_path_ne_config_path. }
    destruct (IH (match r with Some t => tunnels ++ [t] | None => tunnels end)
                d1 Hwf Hnd Hfs')
      as (ts & d' & t2 & Hloop & Hd' & Hpurged & Hinfo).
    cbv zeta in Hloop, Hpurged, Hinfo.
    exists (match r with Some t => t :: ts | None => ts end), d', (t1 ++ t2).
    split.
    { change (@for_pid_files os (f :: fs) tunnels)
        with (r <- @tunnel_entry os f ;;
              for_pid_files fs
                (match r with Some t => tunnels ++ [t] | None => tunnels end)).
      rewrite bind_unfold, Hrun, Hloop.
      destruct r; simpl; by rewrite <- ?app_assoc. }
    split; [by etrans|]. split.
    + intros f' c' Hf' Hc' Hst. apply elem_of_cons in Hf' as [->|Hf'].
      * rewrite Hc0 in Hc'. injection Hc' as <-.
        destruct (Hstale Hst) as [_ ->].
        split; (eapply lookup_weaken_None; [|exact Hd']).
        -- rewrite lookup_delete_ne; [apply lookup_delete_eq|].
           rewrite (Hwf f (ltac:(eauto)) Hend) at 2.
           apply not_eq_sym, pid_path_ne_config_path.
        -- apply lookup_delete_eq.
      * by eapply Hpurged.
    + intros info Hin.
      assert (info ∈ ts \/ r = Some info) as [Hts|Hr].
      { destruct r; [|by left].
        apply elem_of_cons in Hin as [->|]; [by right|by left]. }
      * destruct (Hinfo info Hts) as (f' & c' & pid & ? & ?).
        exists f', c', pid. split; [by right|done].
      * destruct (Hlive info Hr) as (Hid & pid & Hl & Hpid).
        exists f, c, pid. split; [by left|]. done.
Qed.


(** In a directory whose PID files are all named [<id>.pid], a listing
    removes both files of every id whose PID file holds no integer or the
    pid of a process that is not running, and returns no entry for it;
    every entry it returns has a PID file that holds the pid of a process
    that the probe reports as running. *)
Lemma listing_reconciles w :
  stems_well_formed (dir w) ->
  exists ts d' t,
    get_running_tunnels w = (Ok ts, World d' (logs w) (ost w), t)
    /\ (forall id c,
          dir w !! pid_path id = Some c -> stale_content w c ->
          d' !! pid_path id = None /\ d' !! config_path id = None
          /\ forall info, info ∈ ts -> t_id info <> id)
    /\ (forall info, info ∈ ts ->
          exists c pid,
            dir w !! pid_path (t_id info) = Some c
            /\ live_content w c pid /\ t_pid info = Py.str pid).
Proof.
  destruct w as [d0 l o]. cbn [dir logs ost]. intros Hwf.
  set (fs := List.filter (Py.endswith ".pid") (map_to_list d0).*1).
  assert (forall f, f ∈ fs <-> Py.endswith ".pid" f = true /\ is_Some (d0 !! f))
    as Hfs.
  { intros f. unfold fs. rewrite list_elem_of_In, filter_In, <- list_elem_of_In.
    rewrite list_elem_of_fmap. split.
    - intros [([f' c] & -> & Hin) He]. split; [done|].
      apply elem_of_map_to_list in Hin. eauto.
    - intros [He [c Hc]]. split; [|done]. exists (f, c). split; [done|].
      by apply elem_of_map_to_list. }
  destruct (for_pid_files_run d0 l o fs [] d0 Hwf) as
    (ts & d' & t & Hrun & _ & Hpurged & Hinfo).
  { apply NoDup_ListNoDup, List.NoDup_filter, NoDup_ListNoDup,
      NoDup_fst_map_to_list. }
  { intros f Hf. apply Hfs in Hf as [? ?]. done. }
  cbv zeta in Hpurged, Hinfo. simpl in Hrun.
  assert (forall f, f ∈ fs -> Py.replace ".pid" "" f = Py.replace ".pid" "" f
                    /\ f = pid_path (Py.replace ".pid" "" f)) as Hstem.
  { intros f Hf. apply Hfs in Hf as [? ?]. split; [done|]. by apply Hwf. }
  exists ts, d', t. split.
  { unfold get_running_tunnels. exec. fold fs. rewrite Hrun. reflexivity. }
  split.
  - intros id c Hc Hst.
    assert (pid_path id ∈ fs) as Hin.
    { apply Hfs. split; [apply endswith_app|eauto]. }
    assert (Py.replace ".pid" "" (pid_path id) = id) as Hid.
    { destruct (Hstem _ Hin) as [_ Heq]. apply string_app_inj_r in Heq.
      done. }
    destruct (Hpurged _ _ Hin Hc Hst) as [Hp Hcfg]. rewrite Hid in Hcfg.
    split; [done|]. split; [done|].
    intros info Hts Heq.
    destruct (Hinfo info Hts) as (f & c' & pid & Hf & Hidf & Hc' & [Hi Hp'] & _).
    destruct (Hstem _ Hf) as [_ Hfeq]. rewrite <- Hidf, Heq in Hfeq. subst f.
    rewrite Hc in Hc'. injection Hc' as <-.
    unfold stale_content in Hst. cbn [ost] in *. rewrite Hi, Hp' in Hst. done.
  - intros info Hts.
    destruct (Hinfo info Hts) as (f & c & pid & Hf & Hidf & Hc & Hl & Hpid).
    destruct (Hstem _ Hf) as [_ Hfeq]. rewrite <- Hidf in Hfeq. subst f.
    eauto.
Qed.

End Reconciliation.

(** ** [stop_tunnel] *)

Section Stop.
Context {os : OS}.
Implicit Types (w : world os) (pid : Z).

(** Lines 285-287: no PID file. *)
Lemma stop_tunnel_not_found tunnel_id w :
  dir w !! pid_path tunnel_id = None ->
  stop_tunnel tunnel_id w = (Ok false, w, []).
Proof.
  intros H. unfold stop_tunnel. exec. reflexivity.
Qed.

(** Lines 342-346: the PID file does not hold an integer. *)
Lemma stop_tunnel_invalid_pid tunnel_id w c :
  dir w !! pid_path tunnel_id = Some c ->
  Py.int (Py.strip c) = None ->
  stop_tunnel tunnel_id w
  = (Ok false,
     World (delete (pid_path tunnel_id) (dir w)) (logs w) (ost w),
     [EvRemove (pid_path tunnel_id)]).
Proof.
  intros H Hi. unfold stop_tunnel. exec. reflexivity.
Qed.

(** The bounded wait touches no file; it ends normally or with the
    [OverflowError] of a probe. *)
Lemma wait_for_exit_spec n pid : forall w,
  exists r o t,
    wait_for_exit n pid w = (r, World (dir w) (logs w) o, t)
    /\ (r = Ok tt \/ r = Raise OverflowError).
Proof.
  induction n as [|n IH]; intros [d l o]; simpl.
  - exists (Ok tt), o, []. auto.
  - exec. destruct (os_probe os o pid); exec; eauto 6.
    match goal with |- context [wait_for_exit n pid ?w1] =>
      destruct (IH w1) as (r & o' & t & -> & Hr) end.
    destruct Hr as [-> | ->]; exec; eauto 6.
Qed.

Local Ltac stop_done :=
  eexists _, _, _, _; split; [reflexivity|]; simpl; reflexivity.

(** Lines 289-349 when the PID file holds an integer: the call returns;
    when it returns [False] the directory is as it was, when it returns
    [True] both files of the tunnel are gone. *)
Lemma stop_tunnel_valid_pid tunnel_id w c pid :
  dir w !! pid_path tunnel_id = Some c ->
  Py.int (Py.strip c) = Some pid ->
  exists b d o t,
    stop_tunnel tunnel_id w = (Ok b, World d (logs w) o, t)
    /\ (if b then d ⊆ purged tunnel_id (dir w) else d = dir w).
Proof.
  destruct w as [d l o]. simpl. intros H Hi.
  unfold stop_tunnel, purged. exec.
  destruct (os_probe os o pid) eqn:E0; exec; try by stop_done.
  destruct (os_signal os o pid SIGTERM) as [r1 o1] eqn:E1.
  destruct r1; exec; try by stop_done.
  all: destruct (wait_for_exit_spec 10 pid (World d l o1))
         as (r & o2 & t & -> & [-> | ->]); exec; try by stop_done.
  all: destruct (os_probe os o2 pid) eqn:E2; exec; try by stop_done.
  all: try (destruct (os_signal os o2 pid SIGKILL) as [r3 o3] eqn:E3;
            destruct r3; exec; try by stop_done).
  all: match goal with |- context [get_running_tunnels ?w1] =>
         destruct (get_running_tunnels_spec w1)
           as (rs & d' & t' & -> & Hd' & _) end;
       exec; eexists _, _, _, _; (split; [reflexivity|exact Hd']).
Qed.

Lemma purged_pid tunnel_id d : purged tunnel_id d !! pid_path tunnel_id = None.
Proof.
  unfold purged. rewrite lookup_delete_ne by (symmetry; apply pid_path_ne_config_path).
  apply lookup_delete_eq.
Qed.

Lemma purged_config tunnel_id d :
  purged tunnel_id d !! config_path tunnel_id = None.
Proof. unfold purged. apply lookup_delete_eq. Qed.

End Stop.

Section StopProperties.
Context {os : OS}.
Implicit Types (w : world os) (pid : Z).

(** C2 (amended).  Whenever [stop_tunnel] reports failure and the PID file
    is absent or holds an integer (tunnel not found, signal rejected by the
    operating system, any other error), no file has been deleted: the
    directory and the logs are exactly as they were. *)
Theorem stop_tunnel_failure_keeps_files tunnel_id w :
  (stop_tunnel tunnel_id w).1.1 = Ok false ->
  pid_record_parses tunnel_id w = true ->
  dir (stop_tunnel tunnel_id w).1.2 = dir w
  /\ logs (stop_tunnel tunnel_id w).1.2 = logs w.
Proof.
  unfold pid_record_parses. intros Hfail Hparse.
  destruct (dir w !! pid_path tunnel_id) as [c|] eqn:Hc.
  - destruct (Py.int (Py.strip c)) as [pid|] eqn:Hi; [|done].
    destruct (stop_tunnel_valid_pid tunnel_id w c pid Hc Hi)
      as (b & d & o & t & Hrun & Hd).
    rewrite Hrun in *. simpl in *. injection Hfail as ->. done.
  - rewrite stop_tunnel_not_found by done. done.
Qed.

(** C3 (amended).  When a call of [stop_tunnel] reports success, neither
    the PID file nor the descriptor of that id remains, and a second call
    right after it changes nothing and reports "not found": it returns
    [False]. *)
Theorem stop_tunnel_twice tunnel_id w :
  (stop_tunnel tunnel_id w).1.1 = Ok true ->
  let w1 := (stop_tunnel tunnel_id w).1.2 in
  dir w1 !! pid_path tunnel_id = None
  /\ dir w1 !! config_path tunnel_id = None
  /\ stop_tunnel tunnel_id w1 = (Ok false, w1, []).
Proof.
  intros Hok w1.
  assert (dir w1 !! pid_path tunnel_id = None
          /\ dir w1 !! config_path tunnel_id = None) as [Hp Hc].
  { subst w1. destruct (dir w !! pid_path tunnel_id) as [c|] eqn:Hc.
    - destruct (Py.int (Py.strip c)) as [pid|] eqn:Hi.
      + destruct (stop_tunnel_valid_pid tunnel_id w c pid Hc Hi)
          as (b & d & o & t & Hrun & Hd).
        rewrite Hrun in *. simpl in *. injection Hok as ->.
        split; eapply lookup_weaken_None;
          eauto using purged_pid, purged_config.
      + rewrite (stop_tunnel_invalid_pid tunnel_id w c) in Hok by done.
        discriminate.
    - rewrite stop_tunnel_not_found in Hok by done. discriminate. }
  split; [done|]. split; [done|]. by apply stop_tunnel_not_found.
Qed.

(** C7 (amended).  When the process is still alive after the bounded
    graceful wait, SIGKILL is sent and liveness is not checked again: the
    answer of the operating system to the signal alone decides.  When the
    signal is delivered or the process is already gone, both files are
    purged and success is reported, whatever the process does then; when
    the signal is rejected, failure is reported and the directory is as it
    was.  In both cases the process table is left as the signal left it. *)
Theorem stop_tunnel_force_kill tunnel_id w c pid :
  dir w !! pid_path tunnel_id = Some c ->
  Py.int (Py.strip c) = Some pid ->
  os_probe os (ost w) pid = KillOk ->
  let sigterm := os_signal os (ost w) pid SIGTERM in
  let waited := wait_for_exit 10 pid (World (dir w) (logs w) sigterm.2) in
  signal_value sigterm.1 = Ok true ->
  waited.1.1 = Ok tt ->
  os_probe os (ost waited.1.2) pid = KillOk ->
  let out := stop_tunnel tunnel_id w in
  let sigkill := os_signal os (ost waited.1.2) pid SIGKILL in
  In (EvSignal pid SIGKILL sigkill.1) out.2
  /\ ost out.1.2 = sigkill.2
  /\ match signal_value sigkill.1 with
     | Ok true =>
         out.1.1 = Ok true
         /\ dir out.1.2 !! pid_path tunnel_id = None
         /\ dir out.1.2 !! config_path tunnel_id = None
     | _ => out.1.1 = Ok false /\ dir out.1.2 = dir w
     end.
Proof.
  destruct w as [d l o]. cbn [dir logs ost]. intros Hc Hi E0.
  destruct (os_signal os o pid SIGTERM) as [r1 o1] eqn:E1. cbn [fst snd].
  destruct (wait_for_exit_spec 10 pid (World d l o1))
    as (r & o2 & t_wait & Hwait & _).
  cbn [dir logs ost] in Hwait. rewrite Hwait. cbn [fst snd ost].
  intros Hr1 -> E2.
  unfold stop_tunnel. exec.
  destruct r1; try discriminate; exec.
  all: destruct (os_signal os o2 pid SIGKILL) as [r3 o3] eqn:E3;
       destruct r3; exec.
  all: try match goal with |- context [get_running_tunnels ?w1] =>
         destruct (get_running_tunnels_spec w1)
           as (rs & d' & t' & -> & Hd' & _) end; exec.
  all: simpl; rewrite ?in_app_iff; simpl.
  all: repeat split; auto 10.
  all: eapply lookup_weaken_None; eauto using purged_pid, purged_config.
Qed.

End StopProperties.

(** C2, counterexample.  The PID file holds [abc]: [stop_tunnel] reports
    failure, the PID file is deleted and the descriptor is left without
    it. *)
Lemma stop_tunnel_failure_deletes_pid_file :
  let out := stop_tunnel "t" Scenario.corrupt in
  out.1.1 = Ok false
  /\ dir Scenario.corrupt !! "t.pid" = Some "abc"
  /\ dir out.1.2 !! "t.pid" = None
  /\ is_Some (dir out.1.2 !! "t.config").
Proof. vm_compute. repeat split. eauto. Qed.

(** C2 (amended) at work: the PID file holds a number that is no pid;
    the probe raises, [stop_tunnel] reports failure, nothing is deleted. *)
Lemma stop_tunnel_failure_keeps_files_witness :
  let out := stop_tunnel "t" Scenario.oversized in
  dir out.1.2 = dir Scenario.oversized /\ logs out.1.2 = logs Scenario.oversized.
Proof.
  apply (stop_tunnel_failure_keeps_files (os := Sim.os) "t" Scenario.oversized);
    vm_compute; reflexivity.
Defined.

(** C3, counterexample.  The tunnel runs and its process obeys SIGTERM:
    the first call succeeds, the second call reports failure. *)
Lemma stop_tunnel_second_call_fails :
  let first := stop_tunnel "t" Scenario.running in
  let second := stop_tunnel "t" first.1.2 in
  first.1.1 = Ok true /\ second.1.1 = Ok false.
Proof. vm_compute. split; reflexivity. Qed.

(** C3 (amended) at work on the running tunnel. *)
Lemma stop_tunnel_twice_witness :
  let w1 := (stop_tunnel "t" Scenario.running).1.2 in
  dir w1 !! pid_path "t" = None
  /\ dir w1 !! config_path "t" = None
  /\ stop_tunnel "t" w1 = (Ok false, w1, []).
Proof.
  apply (stop_tunnel_twice (os := Sim.os) "t" Scenario.running).
  vm_compute. reflexivity.
Defined.

(** C7, counterexample.  The process outlives SIGTERM and SIGKILL:
    [stop_tunnel] sends SIGKILL, purges both files and reports success
    while the process is still there. *)
Lemma stop_tunnel_success_with_live_process :
  let out := stop_tunnel "t" Scenario.unkillable in
  In (EvSignal 7 SIGKILL KillOk) out.2
  /\ out.1.1 = Ok true
  /\ dir out.1.2 = ∅
  /\ os_probe Sim.os (ost out.1.2) 7 = KillOk.
Proof. vm_compute. repeat split. auto 30. Qed.

(** C7 (amended) at work on the process that outlives both signals. *)
Lemma stop_tunnel_force_kill_witness :
  let w := Scenario.unkillable in
  let out := stop_tunnel "t" w in
  let sigkill := os_signal Sim.os (ost w) 7 SIGKILL in
  out.1.1 = Ok true /\ In (EvSignal 7 SIGKILL sigkill.1) out.2.
Proof.
  pose proof (stop_tunnel_force_kill (os := Sim.os) "t" Scenario.unkillable
                "7" 7) as H.
  cbv zeta in H.
  destruct H as (Hin & _ & Hout); try reflexivity.
  split.
  - apply Hout.
  - exact Hin.
Defined.

(** ** Tunnel ids *)

Lemma sub_non_id_all name : Py.str_all Re.is_id_char (Re.sub_non_id name) = true.
Proof.
  induction name as [|c s IH]; simpl; [done|].
  rewrite IH, andb_true_r. by destruct (Re.is_id_char c) eqn:E.
Qed.

Lemma hex_char_id d : Re.is_id_char (hex_char d) = true.
Proof.
  unfold hex_char.
  repeat (match goal with |- context [match ?x with _ => _ end] =>
            destruct x end; try reflexivity).
Qed.

Lemma hex_digits_all n : forall x acc,
  Py.str_all Re.is_id_char acc = true ->
  Py.str_all Re.is_id_char (hex_digits n x acc) = true.
Proof.
  induction n as [|n IH]; intros x acc Hacc; simpl; [done|].
  apply IH. simpl. by rewrite hex_char_id, Hacc.
Qed.

Lemma sanitize_valid uuid name : valid_id (sanitize uuid name).
Proof.
  unfold sanitize.
  destruct (Re.sub_non_id name) as [|c s] eqn:E.
  - split; [done|]. unfold uuid_prefix.
    change (Py.str_all Re.is_id_char ("app_" +:+ hex_digits 8 (uuid / 2 ^ 96) "")
            = true).
    rewrite str_all_app, hex_digits_all by done. reflexivity.
  - split; [done|]. rewrite <- E. apply sub_non_id_all.
Qed.

Lemma pretty_N_char_digit d : Py.is_digit (pretty_N_char d) = true.
Proof.
  unfold pretty_N_char.
  repeat (match goal with |- context [match ?x with _ => _ end] =>
            destruct x end; try reflexivity).
Qed.

Lemma pretty_N_go_digits x : forall s,
  Py.str_all Py.is_digit s = true ->
  Py.str_all Py.is_digit (pretty_N_go x s) = true.
Proof.
  induction (N.lt_wf_0 x) as [x _ IH]; intros s Hs.
  destruct (decide (x = 0)%N) as [->|Hx].
  - by rewrite pretty_N_go_0.
  - rewrite pretty_N_go_step by lia. apply IH.
    + apply N.div_lt; lia.
    + simpl. by rewrite pretty_N_char_digit, Hs.
Qed.

Lemma pretty_N_go_not_empty x : forall s, s <> "" -> pretty_N_go x s <> "".
Proof.
  induction (N.lt_wf_0 x) as [x _ IH]; intros s Hs.
  destruct (decide (x = 0)%N) as [->|Hx].
  - by rewrite pretty_N_go_0.
  - rewrite pretty_N_go_step by lia. apply IH; [apply N.div_lt; lia|done].
Qed.

(** [str(n)] of a positive integer: decimal digits, at least one. *)
Lemma str_positive_digits n :
  (0 < n)%Z -> Py.str n <> "" /\ Py.str_all Py.is_digit (Py.str n) = true.
Proof.
  intros Hn. destruct n as [|p|p]; try lia.
  unfold Py.str, pretty, pretty_Z, pretty, pretty_positive, pretty, pretty_N.
  destruct (decide (N.pos p = 0%N)) as [|_]; [done|]. split.
  - rewrite pretty_N_go_step by lia. by apply pretty_N_go_not_empty.
  - by apply pretty_N_go_digits.
Qed.

Lemma digit_is_id_char c : Py.is_digit c = true -> Re.is_id_char c = true.
Proof.
  unfold Re.is_id_char. intros ->.
  by rewrite !orb_true_r.
Qed.

(** [re.sub] replaces position by position. *)
Lemma sub_non_id_get name : forall i,
  String.get i (Re.sub_non_id name)
  = (fun c => if Re.is_id_char c then c else "_"%char) <$> String.get i name.
Proof.
  induction name as [|c s IH]; intros i; [done|].
  cbn [Re.sub_non_id]. destruct i as [|i]; [done|]. cbn [String.get].
  apply IH.
Qed.

Lemma sanitize_not_empty uuid name :
  name <> "" -> sanitize uuid name = Re.sub_non_id name.
Proof.
  intros Hne. unfold sanitize. destruct name as [|c s]; done.
Qed.

Lemma hex_digits_length n : forall x acc,
  String.length (hex_digits n x acc) = n + String.length acc.
Proof.
  induction n as [|n IH]; intros x acc; [done|].
  cbn [hex_digits]. rewrite IH. simpl. lia.
Qed.

Lemma hex_char_hex d :
  Py.is_digit (hex_char d) || Py.in_range 97 102 (hex_char d) = true.
Proof.
  unfold hex_char.
  repeat (match goal with |- context [match ?x with _ => _ end] =>
            destruct x end; try reflexivity).
Qed.

Lemma hex_digits_hex n : forall x acc,
  Py.str_all (fun c => Py.is_digit c || Py.in_range 97 102 c) acc = true ->
  Py.str_all (fun c => Py.is_digit c || Py.in_range 97 102 c)
    (hex_digits n x acc) = true.
Proof.
  induction n as [|n IH]; intros x acc Hacc; [done|].
  cbn [hex_digits]. apply IH. cbn [Py.str_all]. by rewrite hex_char_hex, Hacc.
Qed.

Lemma suffixed_valid sanitized_name counter :
  valid_id sanitized_name -> (0 < counter)%Z ->
  valid_id (suffixed sanitized_name counter).
Proof.
  intros [Hne Hall] Hc. unfold suffixed. split.
  - by apply app_not_empty_l.
  - destruct (str_positive_digits counter Hc) as [_ Hd].
    rewrite str_all_app, Hall. simpl.
    eapply str_all_impl; [apply digit_is_id_char|done].
Qed.

(** ** [start_tunnel] *)

Section Start.
Context {os : OS}.
Implicit Types (w : world os).

(** Lines 160-183 in full: a rejected port or protocol gives [False], an
    accepted pair [UnboundLocalError]; nothing is touched either way. *)
Lemma start_tunnel_run uuid name port protocol w :
  start_tunnel uuid name port protocol w
  = (if valid_port port && valid_protocol protocol
     then Raise UnboundLocalError else Ok false, w, []).
Proof.
  unfold start_tunnel.
  destruct (valid_port port); [|reflexivity].
  destruct (valid_protocol protocol); reflexivity.
Qed.

(** C1.  For an accepted port and protocol [start_tunnel] ends at line 183
    with [UnboundLocalError]: the call reports neither success nor failure,
    the probe is not consulted (the run has no effect at all: nothing is
    spawned, polled, probed, written or removed) and the world is the one
    the call found.  Lines 236-253, the confirmation by the probe and the
    clean-up when it fails, are never reached. *)
Theorem start_tunnel_stops_at_line_183 uuid name port protocol w :
  valid_port port = true ->
  valid_protocol protocol = true ->
  let out := start_tunnel uuid name port protocol w in
  out.1.1 = Raise UnboundLocalError
  /\ out.1.2 = w
  /\ out.2 = [].
Proof.
  intros Hport Hproto. cbv zeta.
  by rewrite start_tunnel_run, Hport, Hproto.
Qed.

(** C10.  The name that lines 175-180 make of the requested name is a
    non-empty string over [[A-Za-z0-9_-]], whatever the requested name.  For
    a name of ASCII text that is not empty it is that name with every
    character outside the set replaced by ['_'], position by position, and
    for the empty name it is [app_] followed by eight hexadecimal digits.
    The f-string of line 188 keeps a name within the set for every counter
    from 1 on.  No run of [start_tunnel] creates a file whose stem is not
    such a name (as the call ends at line 183, it creates no file). *)
Theorem tunnel_ids_valid uuid name :
  let sanitized_name := sanitize uuid name in
  valid_id sanitized_name
  /\ (name <> "" -> ascii_text name = true ->
      forall i,
        String.get i sanitized_name
        = (fun c => if Re.is_id_char c then c else "_"%char)
            <$> String.get i name)
  /\ (name = "" ->
      sanitized_name = "app_" +:+ uuid_prefix uuid
      /\ String.length (uuid_prefix uuid) = 8
      /\ Py.str_all (fun c => Py.is_digit c || Py.in_range 97 102 c)
           (uuid_prefix uuid) = true)
  /\ (forall counter,
        (1 <= counter)%Z -> valid_id (suffixed sanitized_name counter))
  /\ (forall port protocol w,
        Forall valid_stem_event (start_tunnel uuid name port protocol w).2).
Proof.
  cbv zeta. split; [apply sanitize_valid|]. split; [|split; [|split]].
  - intros Hne _ i. rewrite sanitize_not_empty by done. apply sub_non_id_get.
  - intros ->. split; [reflexivity|]. split.
    + apply hex_digits_length.
    + by apply hex_digits_hex.
  - intros counter Hc. apply suffixed_valid; [apply sanitize_valid|lia].
  - intros port protocol w. rewrite start_tunnel_run. constructor.
Qed.

End Start.

(** C1 at work: the binary that would be launched runs under another user,
    so that the probe of line 245 would be refused. *)
Lemma start_tunnel_stops_at_line_183_witness :
  let out := Scenario.start "svc" (Scenario.fresh (Some Sim.alien)) in
  out.1.1 = Raise UnboundLocalError
  /\ out.1.2 = Scenario.fresh (Some Sim.alien)
  /\ out.2 = [].
Proof.
  apply (start_tunnel_stops_at_line_183 (os := Sim.os) 0 "svc" "3000" "http"
           (Scenario.fresh (Some Sim.alien)));
    vm_compute; reflexivity.
Defined.

(** ** Runs of the probe, of [start_tunnel] and of the listing *)

(** C4.  [is_process_running] answers [False] for a process that exists
    and belongs to another user, as it does for a pid without process. *)
Theorem is_process_running_permission_denied :
  let w := Scenario.foreign_process in
  os_probe Sim.os (ost w) 1 = KillPermission
  /\ (is_process_running 1 w).1.1 = Ok false
  /\ os_probe Sim.os (ost w) 2 = KillNoProcess
  /\ (is_process_running 2 w).1.1 = Ok false.
Proof. vm_compute. repeat split. Qed.

(** C5.  No call of [start_tunnel] returns [True], so no name is ever
    chosen.  Started for the name [svc] with port 3000 and protocol http,
    the call raises [UnboundLocalError] in an empty directory, and it does
    so next to a PID file [svc.pid] whose process is gone: the PID files
    are not looked at, the directory stays as it is. *)
Theorem start_tunnel_chooses_no_name :
  (forall os uuid name port protocol (w : world os),
     (start_tunnel uuid name port protocol w).1.1 <> Ok true)
  /\ Sim.observe (Scenario.start "svc" (Scenario.fresh (Some Sim.healthy)))
     = (Raise UnboundLocalError, [], [])
  /\ Sim.observe (Scenario.start "svc" Scenario.dead_base)
     = (Raise UnboundLocalError, [("svc.pid", "4242")], []).
Proof.
  split; [|split; vm_compute; reflexivity].
  intros os uuid name port protocol w. rewrite start_tunnel_run.
  cbn [fst]. by destruct (valid_port port && valid_protocol protocol).
Qed.

(** C6.  The binary exits right after its launch.  [start_tunnel] does not
    get as far as launching it: the call raises [UnboundLocalError] instead
    of returning [False], and nothing has been spawned, written or
    removed. *)
Theorem start_tunnel_raises_before_spawn :
  valid_port "3000" = true
  /\ valid_protocol "http" = true
  /\ Sim.observe (Scenario.start "svc" (Scenario.fresh (Some Sim.short_lived)))
     = (Raise UnboundLocalError, [], [])
  /\ ost (Scenario.start "svc" (Scenario.fresh (Some Sim.short_lived))).1.2
     = ost (Scenario.fresh (Some Sim.short_lived)).
Proof. vm_compute. repeat split. Qed.

(** C8.  The PID file [x.pid.pid] (stem [x.pid]) holds no integer.  The
    listing takes [x] for its id: it removes that PID file and the
    descriptor [x.config] of the running tunnel [x]; the descriptor
    [x.pid.config] of the stem stays behind, and the list that is returned
    contains the id [x]. *)
Theorem listing_keeps_descriptor_of_dotted_stem :
  let out := get_running_tunnels Scenario.stray in
  Py.replace ".pid" "" "x.pid.pid" = "x"
  /\ (map_to_list (dir Scenario.stray)).*1
     = ["x.config"; "x.pid.config"; "x.pid.pid"; "x.pid"]
  /\ (map_to_list (dir out.1.2)).*1 = ["x.pid.config"; "x.pid"]
  /\ match out.1.1 with
     | Ok tunnels => t_id <$> tunnels
     | _ => []
     end = ["x"].
Proof. vm_compute. repeat split. Qed.

(** ** The log scanner *)

Lemma span_label_spec s : forall run rest,
  Re.span_label s = (run, rest) ->
  s = run +:+ rest /\ Py.str_all Re.is_label_char run = true.
Proof.
  induction s as [|c s IH]; intros run rest H; simpl in H.
  - by injection H as <- <-.
  - destruct (Re.is_label_char c) eqn:Hc.
    + destruct (Re.span_label s) as [run' rest']. injection H as <- <-.
      destruct (IH run' rest' eq_refl) as [-> Hall].
      split; [done|]. simpl. by rewrite Hc, Hall.
    + by injection H as <- <-.
Qed.

(** A match at the head of [s]: the literal head, a run of label
    characters, the literal tail; it is a prefix of [s]. *)
Lemma match_url_spec s m :
  Re.match_url s = Some m ->
  exists run post,
    m = Re.url_head +:+ run +:+ Re.url_tail
    /\ Py.str_all Re.is_label_char run = true
    /\ s = m +:+ post.
Proof.
  unfold Re.match_url. intros H.
  destruct (String.prefix Re.url_head s) eqn:Hh; [|done].
  apply prefix_app in Hh as [r ->].
  rewrite drop_app in H.
  destruct (Re.span_label r) as [run rest] eqn:Hs.
  apply span_label_spec in Hs as [-> Hall].
  destruct (String.prefix Re.url_tail rest) eqn:Ht; [|done].
  apply prefix_app in Ht as [post ->]. injection H as <-.
  exists run, post. split; [done|]. split; [done|].
  by rewrite !string_app_assoc.
Qed.

Lemma findall_from_drop s : forall k,
  Re.findall_from k s = Re.findall_from 0 (Py.drop k s).
Proof.
  induction s as [|c s IH]; intros [|k]; try done. simpl. apply IH.
Qed.

Lemma match_url_not_empty s m : Re.match_url s = Some m -> exists c m', m = String c m'.
Proof.
  intros H. apply match_url_spec in H as (run & post & -> & _ & _).
  unfold Re.url_head. eauto.
Qed.

(** No match starts in a text on which [findall] finds nothing. *)
Lemma findall_nil s :
  Re.findall_from 0 s = [] -> forall n, Re.match_url (Py.drop n s) = None.
Proof.
  induction s as [|c s IH]; intros H n.
  - by destruct n.
  - simpl in H. destruct (Re.match_url (String c s)) eqn:Hm; [done|].
    destruct n as [|n]; [done|]. simpl. by apply IH.
Qed.

(** The last match that [findall] returns: where it is, and that
    [findall] finds nothing behind it. *)
Lemma findall_last s : forall k ms m,
  Re.findall_from k s = ms ++ [m] ->
  exists pre post,
    s = pre +:+ m +:+ post
    /\ Re.match_url (m +:+ post) = Some m
    /\ Re.findall_from 0 post = [].
Proof.
  induction s as [|c s IH]; intros k ms m H.
  - simpl in H. by destruct ms.
  - simpl in H. destruct k as [|k].
    + destruct (Re.match_url (String c s)) as [m0|] eqn:Hm.
      * destruct ms as [|m1 ms]; simpl in H.
        -- injection H as -> Hnil.
           destruct (match_url_spec _ _ Hm) as (run & post & Hshape & _ & Hs).
           exists "", post. split; [done|]. rewrite <- Hs. split; [done|].
           destruct (match_url_not_empty _ _ Hm) as (c' & m' & ->).
           rewrite string_app_cons in Hs. injection Hs as -> ->.
           rewrite findall_from_drop in Hnil. simpl in Hnil.
           by rewrite Nat.sub_0_r, drop_app in Hnil.
        -- injection H as -> H.
           destruct (IH _ _ _ H) as (pre & post & -> & ? & ?).
           by exists (String c pre), post.
      * destruct (IH _ _ _ H) as (pre & post & -> & ? & ?).
        by exists (String c pre), post.
    + destruct (IH _ _ _ H) as (pre & post & -> & ? & ?).
      by exists (String c pre), post.
Qed.

Lemma get_5_of_head t :
  String.prefix Re.url_head t = true -> String.get 5 t = Some ":"%char.
Proof. intros H. by apply prefix_app in H as [r ->]. Qed.

(** The colon of the head is not met within a run of label characters
    followed by the tail. *)
Lemma get_5_of_label_run run post :
  Py.str_all Re.is_label_char run = true ->
  String.get 5 (run +:+ Re.url_tail +:+ post) <> Some ":"%char.
Proof.
  intros Hall.
  destruct run as [|c0 [|c1 [|c2 [|c3 [|c4 [|c5 run]]]]]]; try done.
  simpl in Hall. rewrite !andb_true_iff in Hall.
  destruct Hall as (_ & _ & _ & _ & _ & Hc5 & _).
  intros [= ->]. done.
Qed.

Lemma match_url_no_head t :
  String.prefix Re.url_head t = false -> Re.match_url t = None.
Proof. unfold Re.match_url. by intros ->. Qed.

(** No match starts within a run of label characters or within the tail
    that follows it. *)
Lemma no_match_in_label_run run post : forall k,
  Py.str_all Re.is_label_char run = true ->
  k < String.length (run +:+ Re.url_tail) ->
  Re.match_url (Py.drop k (run +:+ Re.url_tail +:+ post)) = None.
Proof.
  induction run as [|c run IH]; intros k Hall Hk.
  - apply match_url_no_head.
    change (String.length ("" +:+ Re.url_tail)) with 18 in Hk.
    do 18 (destruct k as [|k]; [reflexivity|]). lia.
  - destruct k as [|k].
    + apply match_url_no_head.
      destruct (String.prefix Re.url_head _) eqn:Hp; [|done].
      apply get_5_of_head in Hp. by apply get_5_of_label_run in Hp.
    + rewrite string_app_cons. simpl. apply IH.
      * simpl in Hall. by apply andb_true_iff in Hall as [_ ?].
      * rewrite string_app_cons in Hk. simpl in Hk. lia.
Qed.

(** Matches do not overlap: no match starts inside a match. *)
Lemma no_match_inside_match m post n :
  Re.match_url (m +:+ post) = Some m ->
  0 < n < String.length m ->
  Re.match_url (Py.drop n (m +:+ post)) = None.
Proof.
  intros Hm Hn.
  destruct (match_url_spec _ _ Hm) as (run & post' & -> & Hall & Hpost).
  rewrite !string_app_assoc in *.
  do 8 (destruct n as [|n]; [by (lia || reflexivity)|]).
  change (Py.drop (S (S (S (S (S (S (S (S n))))))))
            (Re.url_head +:+ run +:+ Re.url_tail +:+ post))
    with (Py.drop n (run +:+ Re.url_tail +:+ post)).
  apply no_match_in_label_run; [done|].
  rewrite !string_length_app in *.
  change (String.length Re.url_head) with 8 in Hn. lia.
Qed.

Lemma findall_last_match content ms m :
  Re.findall content = ms ++ [m] -> last_match_of content m.
Proof.
  intros H. apply findall_last in H as (pre & post & -> & Hm & Hnil).
  exists pre, post. split; [done|]. split; [done|]. intros n Hn.
  destruct (decide (n < String.length m)) as [Hlt|Hge].
  - by apply no_match_inside_match.
  - replace n with (String.length m + (n - String.length m)) by lia.
    rewrite <- drop_drop, drop_app. by apply findall_nil.
Qed.

(** C9.  The public URL of a tunnel is empty when the log file is missing
    or holds no match of the pattern; otherwise it is the last match that
    the scan of the whole log finds, and no match of the pattern starts at
    any later position of the log.  A log with two public URLs yields the
    second. *)
Theorem public_url_is_last_match :
  (forall (os : OS) (w : world os) tunnel_id,
     logs w !! log_path tunnel_id = None ->
     read_public_url tunnel_id w = (Ok "", w, []))
  /\ (forall (os : OS) (w : world os) tunnel_id content,
        logs w !! log_path tunnel_id = Some content ->
        read_public_url tunnel_id w = (Ok (public_url_of content), w, []))
  /\ (forall content, Re.findall content = [] -> public_url_of content = "")
  /\ (forall content ms m,
        Re.findall content = ms ++ [m] ->
        public_url_of content = m /\ last_match_of content m)
  /\ public_url_of
       "INF https://old-name.trycloudflare.com ERR retry INF https://new-name.trycloudflare.com up"
     = "https://new-name.trycloudflare.com".
Proof.
  split; [|split; [|split; [|split]]].
  - intros os w tunnel_id H. unfold read_public_url. exec. reflexivity.
  - intros os w tunnel_id content H. unfold read_public_url. exec.
    reflexivity.
  - intros content H. unfold public_url_of. by rewrite H.
  - intros content ms m H. split; [|by eapply findall_last_match].
    unfold public_url_of. rewrite H.
    destruct ms as [|m0 ms]; [done|]. simpl. apply last_last.
  - reflexivity.
Qed.

(** C9 at work on a log with two public URLs. *)
Lemma public_url_is_last_match_witness :
  let content := "a https://x.trycloudflare.com b https://y-2.trycloudflare.com c" in
  public_url_of content = "https://y-2.trycloudflare.com"
  /\ last_match_of content "https://y-2.trycloudflare.com".
Proof.
  destruct public_url_is_last_match as (_ & _ & _ & H & _).
  apply (H _ ["https://x.trycloudflare.com"]). reflexivity.
Defined.

(** ** Numbers, white space and lines *)

Lemma digit_val_pretty d :
  (d < 10)%N ->
  Py.is_digit (pretty_N_char d) = true
  /\ Py.digit_val (pretty_N_char d) = Z.of_N d.
Proof.
  intros H.
  assert (d = 0 \/ d = 1 \/ d = 2 \/ d = 3 \/ d = 4 \/ d = 5 \/ d = 6 \/ d = 7
          \/ d = 8 \/ d = 9)%N as Hd by lia.
  repeat destruct Hd as [->|Hd]; try subst d; by vm_compute.
Qed.

(** Reading the digits that [pretty_N_go] puts in front of [s]. *)
Lemma int_digits_pretty_go x :
  exists k : nat,
    forall s acc after,
      Py.int_digits acc after (pretty_N_go x s)
      = Py.int_digits (acc * 10 ^ Z.of_nat k + Z.of_N x)
          (if (x =? 0)%N then after else true) s.
Proof.
  induction (N.lt_wf_0 x) as [x _ IH].
  assert (x = 0 \/ 0 < x)%N as [->|Hx] by lia.
  - exists 0. intros s acc after. rewrite pretty_N_go_0.
    simpl. f_equal. lia.
  - destruct (IH (x `div` 10)%N) as (k & Hk); [by apply N.div_lt|].
    exists (S k). intros s acc after.
    rewrite pretty_N_go_step by done. rewrite Hk.
    destruct (digit_val_pretty (x `mod` 10)%N) as [Hd Hv];
      [by apply N.mod_lt|].
    cbn [Py.int_digits]. rewrite Hd, Hv.
    destruct (x =? 0)%N eqn:E; [apply N.eqb_eq in E; lia|]. f_equal.
    rewrite Nat2Z.inj_succ, Z.pow_succ_r by lia.
    pose proof (N.div_mod x 10 ltac:(done)) as Hdm.
    rewrite N2Z.inj_div in *. lia.
Qed.

Lemma lstrip_no_space s : no_space s = true -> Py.lstrip s = s.
Proof.
  unfold no_space. destruct s as [|c s]; simpl; [done|].
  intros [Hc _]%andb_true_iff. by destruct (Py.is_space c).
Qed.

Lemma rstrip_no_space s : no_space s = true -> Py.rstrip s = s.
Proof.
  unfold no_space. induction s as [|c s IH]; simpl; [done|].
  intros [Hc Hs]%andb_true_iff. rewrite (IH Hs).
  destruct (Py.is_space c); [done|]. by destruct s.
Qed.

Lemma digits_no_space s : Py.str_all Py.is_digit s = true -> no_space s = true.
Proof.
  apply str_all_impl. intros c.
  destruct c as [[] [] [] [] [] [] [] []]; by vm_compute.
Qed.

Lemma no_space_app a b :
  no_space a = true -> no_space b = true -> no_space (a +:+ b) = true.
Proof. unfold no_space. intros Ha Hb. by rewrite str_all_app, Ha, Hb. Qed.

Lemma no_space_single_line s : no_space s = true -> single_line s = true.
Proof.
  apply str_all_impl. intros c.
  destruct c as [[] [] [] [] [] [] [] []]; by vm_compute.
Qed.

Lemma int_digits_pretty_pos p :
  Py.int_digits 0 false (pretty (N.pos p)) = Some (Z.pos p).
Proof.
  unfold pretty, pretty_N. destruct (decide (N.pos p = 0%N)); [done|].
  destruct (int_digits_pretty_go (N.pos p)) as (k & Hk).
  rewrite Hk. simpl. done.
Qed.

Lemma pretty_pos_digits p :
  exists c r,
    pretty (N.pos p) = String c r /\ Py.is_digit c = true
    /\ Py.str_all Py.is_digit r = true.
Proof.
  destruct (str_positive_digits (Z.pos p)) as [Hne Hall]; [lia|].
  change (Py.str (Z.pos p)) with (pretty (N.pos p)) in Hne, Hall.
  destruct (pretty (N.pos p)) as [|c r] eqn:E; [done|].
  exists c, r. simpl in Hall. apply andb_true_iff in Hall as [Hc Hr]. done.
Qed.

Lemma c_space_is_space c : Py.is_c_space c = true -> Py.is_space c = true.
Proof.
  unfold Py.is_c_space, Py.is_space.
  intros [->| ->]%orb_true_iff; [done|]. by rewrite orb_true_r.
Qed.

Lemma lskip_no_space s : no_space s = true -> Py.lskip s = s.
Proof.
  unfold no_space. destruct s as [|c s]; simpl; [done|].
  intros [Hc _]%andb_true_iff.
  destruct (Py.is_c_space c) eqn:E; [|done].
  apply c_space_is_space in E. by rewrite E in Hc.
Qed.

Lemma rskip_no_space s : no_space s = true -> Py.rskip s = s.
Proof.
  unfold no_space. induction s as [|c s IH]; simpl; [done|].
  intros [Hc Hs]%andb_true_iff. rewrite (IH Hs).
  destruct (Py.is_c_space c) eqn:E; [|by destruct s].
  apply c_space_is_space in E. by rewrite E in Hc.
Qed.

Lemma int_no_space s :
  no_space s = true ->
  Py.int s = match s with
             | String "+" r => Py.int_digits 0 false r
             | String "-" r => Z.opp <$> Py.int_digits 0 false r
             | r => Py.int_digits 0 false r
             end.
Proof.
  intros H. unfold Py.int. rewrite lskip_no_space by done.
  rewrite rskip_no_space by done.
  destruct s as [|[[] [] [] [] [] [] [] []] r]; reflexivity.
Qed.

Lemma int_of_digits s :
  Py.str_all Py.is_digit s = true -> Py.int s = Py.int_digits 0 false s.
Proof.
  intros H. rewrite int_no_space by by apply digits_no_space.
  destruct s as [|c r]; [done|]. simpl in H.
  apply andb_true_iff in H as [Hc _].
  destruct c as [[] [] [] [] [] [] [] []]; try discriminate Hc; reflexivity.
Qed.

Lemma int_digits_ascii s : forall acc after z,
  Py.int_digits acc after s = Some z -> ascii_text s = true.
Proof.
  unfold ascii_text. induction s as [|c s IH]; intros acc after z; [done|].
  cbn [Py.int_digits Py.str_all].
  destruct (Py.is_digit c) eqn:Hd.
  - intros H. apply IH in H. rewrite H, andb_true_r.
    revert Hd. destruct c as [[] [] [] [] [] [] [] []]; by vm_compute.
  - destruct ((Py.ord c =? 95)%N && after) eqn:Hu; [|done].
    apply andb_true_iff in Hu as [Hu _].
    destruct s as [|d s']; [done|].
    destruct (Py.is_digit d); [|done].
    intros H. apply IH in H. rewrite H, andb_true_r.
    revert Hu. destruct c as [[] [] [] [] [] [] [] []]; by vm_compute.
Qed.

Lemma ascii_text_lskip s : ascii_text (Py.lskip s) = true -> ascii_text s = true.
Proof.
  unfold ascii_text. induction s as [|c s IH]; [done|].
  cbn [Py.lskip]. destruct (Py.is_c_space c) eqn:Hc; [|done].
  intros H. cbn [Py.str_all]. rewrite (IH H), andb_true_r.
  revert Hc. destruct c as [[] [] [] [] [] [] [] []]; by vm_compute.
Qed.

Lemma ascii_text_rskip s : ascii_text (Py.rskip s) = true -> ascii_text s = true.
Proof.
  unfold ascii_text. induction s as [|c s IH]; [done|].
  cbn [Py.rskip]. destruct (Py.rskip s) as [|d r] eqn:Hr.
  - intros H. cbn [Py.str_all]. rewrite IH by done. rewrite andb_true_r.
    destruct (Py.is_c_space c) eqn:Hc.
    + revert Hc. destruct c as [[] [] [] [] [] [] [] []]; by vm_compute.
    + cbn [Py.str_all] in H. by apply andb_true_iff in H as [-> _].
  - cbn [Py.str_all]. intros [-> H]%andb_true_iff. by rewrite IH.
Qed.

Lemma ascii_text_lstrip s : ascii_text (Py.lstrip s) = true -> ascii_text s = true.
Proof.
  unfold ascii_text. induction s as [|c s IH]; [done|].
  cbn [Py.lstrip]. destruct (Py.is_space c) eqn:Hc; [|done].
  intros H. cbn [Py.str_all]. rewrite (IH H), andb_true_r.
  revert Hc. destruct c as [[] [] [] [] [] [] [] []]; by vm_compute.
Qed.

Lemma ascii_text_rstrip s : ascii_text (Py.rstrip s) = true -> ascii_text s = true.
Proof.
  unfold ascii_text. induction s as [|c s IH]; [done|].
  cbn [Py.rstrip]. destruct (Py.rstrip s) as [|d r] eqn:Hr.
  - intros H. cbn [Py.str_all]. rewrite IH by done. rewrite andb_true_r.
    destruct (Py.is_space c) eqn:Hc.
    + revert Hc. destruct c as [[] [] [] [] [] [] [] []]; by vm_compute.
    + cbn [Py.str_all] in H. by apply andb_true_iff in H as [-> _].
  - cbn [Py.str_all]. intros [-> H]%andb_true_iff. by rewrite IH.
Qed.

(** A text in which [int] finds an integer is ASCII text. *)
Lemma int_ascii s z : Py.int s = Some z -> ascii_text s = true.
Proof.
  unfold Py.int. intros H. apply ascii_text_lskip, ascii_text_rskip.
  destruct (Py.rskip (Py.lskip s)) as [|c r]; [done|].
  assert (forall z', Py.int_digits 0 false r = Some z' ->
                     (Py.ord c <? 128)%N = true ->
                     ascii_text (String c r) = true) as Hsign.
  { intros z' Hr Hc. unfold ascii_text. cbn [Py.str_all]. rewrite Hc.
    by apply int_digits_ascii in Hr. }
  destruct c as [[] [] [] [] [] [] [] []];
    try (by apply int_digits_ascii in H);
    try (by eapply Hsign).
  destruct (Py.int_digits 0 false r) eqn:Hr; [|done]. by eapply Hsign.
Qed.

(** A PID file that holds an integer is ASCII text: lines 75-80, 274 and
    290-291 read it in the same way under every locale. *)
Lemma pid_record_ascii c pid :
  Py.int (Py.strip c) = Some pid -> ascii_text c = true.
Proof.
  intros H. apply int_ascii in H.
  by apply ascii_text_lstrip, ascii_text_rstrip.
Qed.

(** [int(str(n))] is [n]. *)
Lemma int_str n : Py.int (Py.str n) = Some n.
Proof.
  unfold Py.str, pretty, pretty_Z. destruct n as [|p|p]; [done| |].
  - unfold pretty, pretty_positive.
    destruct (pretty_pos_digits p) as (c & r & E & Hc & Hr).
    rewrite int_of_digits, int_digits_pretty_pos; [done|].
    rewrite E. simpl. by rewrite Hc, Hr.
  - unfold pretty at 1, pretty_positive.
    destruct (pretty_pos_digits p) as (c & r & E & Hc & Hr).
    rewrite int_no_space.
    + change ("-" +:+ pretty (N.pos p)) with (String "-" (pretty (N.pos p))).
      cbv beta iota. rewrite int_digits_pretty_pos. done.
    + change ("-" +:+ pretty (N.pos p)) with (String "-" (pretty (N.pos p))).
      unfold no_space. simpl. apply digits_no_space. rewrite E. simpl.
      by rewrite Hc, Hr.
Qed.

(** X16.  Lines 162-169: of the integers in decimal notation, the validation
    of the port accepts exactly those from 1 to 65535. *)
Theorem valid_port_decimal n :
  valid_port (Py.str n) = true <-> (1 <= n <= 65535)%Z.
Proof.
  unfold valid_port. rewrite int_str. rewrite negb_true_iff, orb_false_iff.
  rewrite !Z.ltb_ge. lia.
Qed.

Lemma config_path_not_pid_file x : Py.endswith ".pid" (config_path x) = false.
Proof.
  unfold config_path. induction x as [|c x IH]; [done|].
  rewrite string_app_cons. cbn [Py.endswith]. rewrite IH.
  destruct (String.eqb (String c (x +:+ ".config")) ".pid") eqn:E; [|done].
  apply String.eqb_eq in E. apply (f_equal String.length) in E.
  simpl in E. rewrite string_length_app in E. simpl in E. lia.
Qed.

Lemma replace_no_dot s :
  Py.str_all (fun c => negb (Ascii.eqb c ".")) s = true ->
  Py.replace ".pid" "" (pid_path s) = s.
Proof.
  unfold Py.replace, pid_path. induction s as [|c s IH]; [done|].
  intros H. cbn [Py.str_all] in H. apply andb_true_iff in H as [Hc Hs].
  rewrite string_app_cons. cbn [Py.replace_from String.prefix].
  destruct (ascii_dec "." c) as [<-|Hne]; [done|].
  rewrite (IH Hs). done.
Qed.

(** Line 70 gives back the id of a PID file that is named after a valid
    id. *)
Lemma replace_valid_id id :
  Py.str_all Re.is_id_char id = true -> Py.replace ".pid" "" (pid_path id) = id.
Proof.
  intros H. apply replace_no_dot. revert H. apply str_all_impl. intros c.
  destruct c as [[] [] [] [] [] [] [] []]; by vm_compute.
Qed.

(** Text mode changes nothing in a text without CR. *)
Lemma universal_newlines_no_cr s :
  no_cr s = true -> Py.universal_newlines s = s.
Proof.
  unfold no_cr. induction s as [|c s IH]; [done|].
  cbn [Py.str_all]. intros [Hc Hs]%andb_true_iff.
  cbn [Py.universal_newlines]. apply negb_true_iff in Hc. rewrite Hc.
  by rewrite IH.
Qed.

Lemma single_line_no_cr s : single_line s = true -> no_cr s = true.
Proof.
  apply str_all_impl. intros c. rewrite !negb_true_iff, orb_false_iff.
  by intros [_ ->].
Qed.

Lemma lines_from_line s : forall cur rest,
  single_line s = true ->
  Py.lines_from cur (s +:+ String "010" rest)
  = cur (s +:+ String "010" "") :: Py.lines_from (fun t => t) rest.
Proof.
  induction s as [|c s IH]; intros cur rest H.
  - reflexivity.
  - unfold single_line in H. cbn [Py.str_all] in H.
    apply andb_true_iff in H as [Hc Hs].
    rewrite !string_app_cons. cbn [Py.lines_from].
    apply negb_true_iff, orb_false_iff in Hc as [Hc _]. rewrite Hc.
    by rewrite IH.
Qed.

Lemma config_text_lines now final_name port protocol :
  config_text now final_name port protocol
  = ("NAME=" +:+ final_name) +:+ String "010"
      (("PORT=" +:+ port) +:+ String "010"
         (("PROTOCOL=" +:+ protocol) +:+ String "010"
            (("START_TIME=" +:+ now) +:+ String "010" ""))).
Proof.
  unfold config_text. rewrite !string_app_assoc, !string_app_cons.
  reflexivity.
Qed.

Lemma lines_config_text now final_name port protocol :
  single_line final_name = true -> single_line port = true ->
  single_line protocol = true -> single_line now = true ->
  Py.lines (config_text now final_name port protocol)
  = [("NAME=" +:+ final_name) +:+ String "010" "";
     ("PORT=" +:+ port) +:+ String "010" "";
     ("PROTOCOL=" +:+ protocol) +:+ String "010" "";
     ("START_TIME=" +:+ now) +:+ String "010" ""].
Proof.
  intros Hn Hp Hpr Hnow. rewrite config_text_lines. unfold Py.lines.
  assert (forall a, single_line a = true -> forall k, single_line k = true ->
            single_line (k +:+ a) = true) as Happ.
  { intros a Ha k Hk. unfold single_line in *. by rewrite str_all_app, Hk, Ha. }
  rewrite universal_newlines_no_cr.
  2:{ unfold no_cr.
      repeat (rewrite str_all_app; apply andb_true_iff; split;
                [by apply single_line_no_cr, Happ|];
              cbn [Py.str_all]; apply andb_true_iff; split; [done|]).
      done. }
  rewrite (lines_from_line ("NAME=" +:+ final_name)) by by apply Happ.
  rewrite (lines_from_line ("PORT=" +:+ port)) by by apply Happ.
  rewrite (lines_from_line ("PROTOCOL=" +:+ protocol)) by by apply Happ.
  rewrite (lines_from_line ("START_TIME=" +:+ now)) by by apply Happ.
  reflexivity.
Qed.

Lemma rstrip_app_space a c :
  Py.is_space c = true -> Py.rstrip (a +:+ String c "") = Py.rstrip a.
Proof.
  intros Hc. induction a as [|x a IH].
  - simpl. by rewrite Hc.
  - rewrite string_app_cons. cbn [Py.rstrip]. by rewrite IH.
Qed.

Lemma strip_line a :
  no_space a = true -> Py.strip (a +:+ String "010" "") = a.
Proof.
  intros H. unfold Py.strip.
  destruct a as [|x a].
  - reflexivity.
  - rewrite string_app_cons. cbn [Py.lstrip].
    pose proof H as H'. unfold no_space in H'. cbn [Py.str_all] in H'.
    apply andb_true_iff in H' as [Hx _]. apply negb_true_iff in Hx.
    rewrite Hx. rewrite <- string_app_cons.
    rewrite rstrip_app_space by done. by apply rstrip_no_space.
Qed.

Lemma prefix_app_self p s : String.prefix p (p +:+ s) = true.
Proof.
  induction p as [|c p IH]; [by destruct s|].
  rewrite string_app_cons. cbn [String.prefix].
  destruct (ascii_dec c c); [done|done].
Qed.

Lemma strip_head c s :
  Py.is_space c = false ->
  exists r, Py.strip (String c s) = String c r.
Proof.
  intros Hc. unfold Py.strip. cbn [Py.lstrip]. rewrite Hc.
  cbn [Py.rstrip]. destruct (Py.rstrip s); rewrite ?Hc; eauto.
Qed.

(** Lines 103-118 on the text of lines 198-201. *)
Lemma read_config_lines cfg now final_name port protocol :
  no_space final_name = true -> no_space port = true ->
  no_space protocol = true -> single_line now = true ->
  fold_left read_config_line
    (Py.lines (config_text now final_name port protocol)) cfg
  = Config final_name port protocol.
Proof.
  intros Hn Hp Hpr Hnow.
  rewrite lines_config_text by auto using no_space_single_line.
  cbn [fold_left]. unfold read_config_line at 4.
  rewrite strip_line by by apply no_space_app.
  unfold Py.startswith. rewrite prefix_app_self.
  change 5 with (String.length "NAME=") at 1. rewrite drop_app.
  unfold read_config_line at 3.
  rewrite strip_line by by apply no_space_app.
  unfold Py.startswith.
  change (String.prefix "NAME=" ("PORT=" +:+ port)) with false.
  rewrite prefix_app_self. cbv iota.
  change 5 with (String.length "PORT=") at 1. rewrite drop_app.
  unfold read_config_line at 2.
  rewrite strip_line by by apply no_space_app.
  unfold Py.startswith.
  change (String.prefix "NAME=" ("PROTOCOL=" +:+ protocol)) with false.
  change (String.prefix "PORT=" ("PROTOCOL=" +:+ protocol)) with false.
  rewrite prefix_app_self. cbv iota.
  change 9 with (String.length "PROTOCOL=") at 1. rewrite drop_app.
  unfold read_config_line.
  destruct (strip_head "S" (("TART_TIME=" +:+ now) +:+ String "010" ""))
    as [r Hr]; [done|].
  change (("START_TIME=" +:+ now) +:+ String "010" "")
    with (String "S" (("TART_TIME=" +:+ now) +:+ String "010" "")).
  rewrite Hr. reflexivity.
Qed.

Lemma string_app_empty_r s : s +:+ "" = s.
Proof. induction s as [|c s IH]; [done|]. by rewrite string_app_cons, IH. Qed.

Lemma join_lines_from s : forall cur p,
  (forall t, cur t = p +:+ t) -> Py.join (Py.lines_from cur s) = p +:+ s.
Proof.
  induction s as [|c s IH]; intros cur p Hcur.
  - cbn [Py.lines_from]. rewrite <- Hcur.
    destruct (cur "") as [|x r]; [done|]. unfold Py.join. simpl.
    by rewrite string_app_empty_r.
  - cbn [Py.lines_from]. destruct (Py.ord c =? 10)%N.
    + unfold Py.join. cbn [fold_right].
      fold (Py.join (Py.lines_from (fun t => t) s)).
      rewrite (IH (fun t => t) "") by done. rewrite Hcur.
      rewrite string_app_assoc. reflexivity.
    + rewrite (IH _ (p +:+ String c "")).
      * rewrite string_app_assoc. reflexivity.
      * intros t. rewrite Hcur, string_app_assoc. reflexivity.
Qed.

(** The lines of a file, put together, are the text that text mode makes
    of the file. *)
Lemma join_lines s : Py.join (Py.lines s) = Py.universal_newlines s.
Proof. unfold Py.lines. by rewrite (join_lines_from _ _ ""). Qed.

(** ** Text mode and the reads that are not cut into lines *)

Lemma ord_eq c n : (Py.ord c =? n)%N = true -> c = ascii_of_N n.
Proof.
  intros H. apply N.eqb_eq in H. rewrite <- H. unfold Py.ord.
  by rewrite ascii_N_embedding.
Qed.

Lemma universal_newlines_other c s :
  (Py.ord c =? 13)%N = false ->
  Py.universal_newlines (String c s) = String c (Py.universal_newlines s).
Proof. intros H. cbn [Py.universal_newlines]. by rewrite H. Qed.

Lemma universal_newlines_cr_lf c d s :
  (Py.ord c =? 13)%N = true -> (Py.ord d =? 10)%N = true ->
  Py.universal_newlines (String c (String d s))
  = String "010" (Py.universal_newlines s).
Proof. intros Hc Hd. cbn [Py.universal_newlines]. by rewrite Hc, Hd. Qed.

Lemma universal_newlines_cr c s :
  (Py.ord c =? 13)%N = true -> no_lf_ahead s ->
  Py.universal_newlines (String c s) = String "010" (Py.universal_newlines s).
Proof.
  intros Hc Hs. cbn [Py.universal_newlines]. rewrite Hc.
  destruct s as [|d s]; [done|]. cbn [no_lf_ahead] in Hs. by rewrite Hs.
Qed.

(** Induction along the way [universal_newlines] reads a text. *)
Lemma universal_newlines_ind (P : string -> Prop) :
  P "" ->
  (forall c d s,
     (Py.ord c =? 13)%N = true -> (Py.ord d =? 10)%N = true ->
     P s -> P (String c (String d s))) ->
  (forall c s,
     (Py.ord c =? 13)%N = true -> no_lf_ahead s -> P s -> P (String c s)) ->
  (forall c s, (Py.ord c =? 13)%N = false -> P s -> P (String c s)) ->
  forall s, P s.
Proof.
  intros Hnil Hcrlf Hcr Hother s.
  cut (P s /\ forall c, P (String c s)); [tauto|].
  induction s as [|a s [IH1 IH2]].
  - split; [done|]. intros c. destruct (Py.ord c =? 13)%N eqn:Hc.
    + by apply Hcr.
    + by apply Hother.
  - split; [apply IH2|]. intros c. destruct (Py.ord c =? 13)%N eqn:Hc.
    + destruct (Py.ord a =? 10)%N eqn:Ha.
      * by apply Hcrlf.
      * apply Hcr; [done|done|apply IH2].
    + apply Hother; [done|apply IH2].
Qed.

Lemma universal_newlines_cons c s :
  exists d r, Py.universal_newlines (String c s) = String d r.
Proof.
  cbn [Py.universal_newlines]. destruct (Py.ord c =? 13)%N; eauto.
Qed.

Lemma cr_facts c :
  (Py.ord c =? 13)%N = true ->
  Py.is_space c = true /\ Py.is_c_space c = true /\ Py.is_digit c = false
  /\ (Py.ord c =? 95)%N = false /\ Re.is_label_char c = false.
Proof. intros ->%ord_eq. by vm_compute. Qed.

Lemma lf_facts c :
  (Py.ord c =? 10)%N = true ->
  Py.is_space c = true /\ Py.is_c_space c = true.
Proof. intros ->%ord_eq. by vm_compute. Qed.

Lemma lstrip_universal_newlines s :
  Py.lstrip (Py.universal_newlines s) = Py.universal_newlines (Py.lstrip s).
Proof.
  induction s as [|c d s Hc Hd IH|c s Hc Hs IH|c s Hc IH]
    using universal_newlines_ind.
  - done.
  - rewrite universal_newlines_cr_lf by done.
    destruct (cr_facts c Hc) as (Hsp & _). destruct (lf_facts d Hd) as (Hsd & _).
    cbn [Py.lstrip]. by rewrite Hsp, Hsd.
  - rewrite universal_newlines_cr by done.
    destruct (cr_facts c Hc) as (Hsp & _).
    cbn [Py.lstrip]. by rewrite Hsp.
  - rewrite universal_newlines_other by done. cbn [Py.lstrip].
    destruct (Py.is_space c); [done|].
    by rewrite universal_newlines_other.
Qed.

Lemma lskip_universal_newlines s :
  Py.lskip (Py.universal_newlines s) = Py.universal_newlines (Py.lskip s).
Proof.
  induction s as [|c d s Hc Hd IH|c s Hc Hs IH|c s Hc IH]
    using universal_newlines_ind.
  - done.
  - rewrite universal_newlines_cr_lf by done.
    destruct (cr_facts c Hc) as (_ & Hsp & _).
    destruct (lf_facts d Hd) as (_ & Hsd).
    cbn [Py.lskip]. by rewrite Hsp, Hsd.
  - rewrite universal_newlines_cr by done.
    destruct (cr_facts c Hc) as (_ & Hsp & _).
    cbn [Py.lskip]. by rewrite Hsp.
  - rewrite universal_newlines_other by done. cbn [Py.lskip].
    destruct (Py.is_c_space c); [done|].
    by rewrite universal_newlines_other.
Qed.

Lemma rstrip_head s d r : Py.rstrip s = String d r -> exists s', s = String d s'.
Proof.
  destruct s as [|c s]; [done|]. cbn [Py.rstrip].
  destruct (Py.rstrip s); [destruct (Py.is_space c)|]; intros [= <- _]; eauto.
Qed.

Lemma rskip_head s d r : Py.rskip s = String d r -> exists s', s = String d s'.
Proof.
  destruct s as [|c s]; [done|]. cbn [Py.rskip].
  destruct (Py.rskip s); [destruct (Py.is_c_space c)|]; intros [= <- _]; eauto.
Qed.

Lemma rstrip_universal_newlines s :
  Py.rstrip (Py.universal_newlines s) = Py.universal_newlines (Py.rstrip s).
Proof.
  induction s as [|c d s Hc Hd IH|c s Hc Hs IH|c s Hc IH]
    using universal_newlines_ind.
  - done.
  - rewrite universal_newlines_cr_lf by done.
    destruct (cr_facts c Hc) as (Hsp & _). destruct (lf_facts d Hd) as (Hsd & _).
    cbn [Py.rstrip]. rewrite IH.
    destruct (Py.rstrip s) as [|e r] eqn:Hr.
    + by rewrite Hsd, Hsp.
    + destruct (universal_newlines_cons e r) as (e' & r' & Hu). rewrite Hu.
      by rewrite universal_newlines_cr_lf, Hu.
  - rewrite universal_newlines_cr by done.
    destruct (cr_facts c Hc) as (Hsp & _).
    cbn [Py.rstrip]. rewrite IH.
    destruct (Py.rstrip s) as [|e r] eqn:Hr.
    + by rewrite Hsp.
    + destruct (universal_newlines_cons e r) as (e' & r' & Hu). rewrite Hu.
      rewrite universal_newlines_cr, Hu; [done|done|].
      apply rstrip_head in Hr as [s' ->]. exact Hs.
  - rewrite universal_newlines_other by done. cbn [Py.rstrip]. rewrite IH.
    destruct (Py.rstrip s) as [|e r] eqn:Hr.
    + cbn [Py.universal_newlines]. destruct (Py.is_space c); [done|].
      by rewrite universal_newlines_other.
    + destruct (universal_newlines_cons e r) as (e' & r' & Hu). rewrite Hu.
      by rewrite universal_newlines_other, Hu.
Qed.

Lemma rskip_universal_newlines s :
  Py.rskip (Py.universal_newlines s) = Py.universal_newlines (Py.rskip s).
Proof.
  induction s as [|c d s Hc Hd IH|c s Hc Hs IH|c s Hc IH]
    using universal_newlines_ind.
  - done.
  - rewrite universal_newlines_cr_lf by done.
    destruct (cr_facts c Hc) as (_ & Hsp & _).
    destruct (lf_facts d Hd) as (_ & Hsd).
    cbn [Py.rskip]. rewrite IH.
    destruct (Py.rskip s) as [|e r] eqn:Hr.
    + by rewrite Hsd, Hsp.
    + destruct (universal_newlines_cons e r) as (e' & r' & Hu). rewrite Hu.
      by rewrite universal_newlines_cr_lf, Hu.
  - rewrite universal_newlines_cr by done.
    destruct (cr_facts c Hc) as (_ & Hsp & _).
    cbn [Py.rskip]. rewrite IH.
    destruct (Py.rskip s) as [|e r] eqn:Hr.
    + by rewrite Hsp.
    + destruct (universal_newlines_cons e r) as (e' & r' & Hu). rewrite Hu.
      rewrite universal_newlines_cr, Hu; [done|done|].
      apply rskip_head in Hr as [s' ->]. exact Hs.
  - rewrite universal_newlines_other by done. cbn [Py.rskip]. rewrite IH.
    destruct (Py.rskip s) as [|e r] eqn:Hr.
    + cbn [Py.universal_newlines]. destruct (Py.is_c_space c); [done|].
      by rewrite universal_newlines_other.
    + destruct (universal_newlines_cons e r) as (e' & r' & Hu). rewrite Hu.
      by rewrite universal_newlines_other, Hu.
Qed.

Lemma int_digits_universal_newlines s : forall acc after,
  Py.int_digits acc after (Py.universal_newlines s)
  = Py.int_digits acc after s.
Proof.
  induction s as [|c d s Hc Hd IH|c s Hc Hs IH|c s Hc IH]
    using universal_newlines_ind; intros acc after.
  - done.
  - rewrite universal_newlines_cr_lf by done.
    destruct (cr_facts c Hc) as (_ & _ & Hd' & Hu & _).
    cbn [Py.int_digits]. by rewrite Hd', Hu.
  - rewrite universal_newlines_cr by done.
    destruct (cr_facts c Hc) as (_ & _ & Hd' & Hu & _).
    cbn [Py.int_digits]. by rewrite Hd', Hu.
  - rewrite universal_newlines_other by done. cbn [Py.int_digits].
    destruct (Py.is_digit c); [apply IH|].
    destruct ((Py.ord c =? 95)%N && after); [|done].
    destruct s as [|d s]; [done|].
    destruct (Py.ord d =? 13)%N eqn:Hd.
    + destruct (cr_facts d Hd) as (_ & _ & Hd' & _). rewrite Hd'.
      destruct (universal_newlines_cons d s) as (e & r & Hu).
      cbn [Py.universal_newlines] in *. rewrite Hd in *.
      by injection Hu as <- <-.
    + rewrite <- IH. by rewrite universal_newlines_other.
Qed.

(** [int] finds the same integer in a text and in what text mode makes of
    it. *)
Lemma int_universal_newlines s :
  Py.int (Py.universal_newlines s) = Py.int s.
Proof.
  unfold Py.int. rewrite lskip_universal_newlines, rskip_universal_newlines.
  destruct (Py.rskip (Py.lskip s)) as [|c r]; [done|].
  destruct (Py.ord c =? 13)%N eqn:Hc.
  - apply ord_eq in Hc as ->.
    destruct (universal_newlines_cons "013" r) as (e & r' & Hu).
    cbn [Py.universal_newlines] in *.
    change (Py.ord (ascii_of_N 13) =? 13)%N with true in *. cbv iota in *.
    by injection Hu as <- <-.
  - rewrite universal_newlines_other by done.
    destruct c as [[] [] [] [] [] [] [] []]; try discriminate Hc;
      try (rewrite <- (int_digits_universal_newlines (String _ r) 0 false);
           by rewrite universal_newlines_other).
    all: by rewrite (int_digits_universal_newlines r 0 false).
Qed.

(** The PID record: lines 75-80, 274 and 290-291 find the same integer in
    the file as it is stored and as text mode hands it over. *)
Lemma pid_record_universal_newlines c :
  Py.int (Py.strip (Py.universal_newlines c)) = Py.int (Py.strip c).
Proof.
  unfold Py.strip.
  by rewrite lstrip_universal_newlines, rstrip_universal_newlines,
    int_universal_newlines.
Qed.

Lemma universal_newlines_app_no_cr p : forall r,
  no_cr p = true ->
  Py.universal_newlines (p +:+ r) = p +:+ Py.universal_newlines r.
Proof.
  unfold no_cr. induction p as [|a p IH]; intros r Hp; [done|].
  cbn [Py.str_all] in Hp. apply andb_true_iff in Hp as [Ha Hp].
  apply negb_true_iff in Ha.
  rewrite !string_app_cons, universal_newlines_other by done.
  by rewrite IH.
Qed.

Lemma universal_newlines_cr_head c s :
  (Py.ord c =? 13)%N = true ->
  exists r, Py.universal_newlines (String c s) = String "010" r.
Proof. intros Hc. cbn [Py.universal_newlines]. rewrite Hc. eauto. Qed.

Lemma prefix_universal_newlines p : forall s,
  single_line p = true ->
  String.prefix p (Py.universal_newlines s) = String.prefix p s.
Proof.
  unfold single_line. induction p as [|a p IH]; intros s Hp.
  - by destruct s, (Py.universal_newlines _).
  - cbn [Py.str_all] in Hp. apply andb_true_iff in Hp as [Ha Hp].
    apply negb_true_iff, orb_false_iff in Ha as [Hlf Hcr].
    destruct s as [|c s]; [done|].
    destruct (Py.ord c =? 13)%N eqn:Hc.
    + destruct (universal_newlines_cr_head c s Hc) as [r ->].
      apply ord_eq in Hc as ->. cbn [String.prefix].
      destruct (ascii_dec a "010") as [->|_]; [by vm_compute in Hlf|].
      destruct (ascii_dec a (ascii_of_N 13)) as [->|_];
        [by vm_compute in Hcr|done].
    + rewrite universal_newlines_other by done. cbn [String.prefix].
      destruct (ascii_dec a c); [by apply IH|done].
Qed.

Lemma drop_universal_newlines p s :
  single_line p = true -> String.prefix p s = true ->
  Py.drop (String.length p) (Py.universal_newlines s)
  = Py.universal_newlines (Py.drop (String.length p) s).
Proof.
  intros Hp Hs. apply prefix_app in Hs as [r ->].
  rewrite universal_newlines_app_no_cr by by apply single_line_no_cr.
  by rewrite !drop_app.
Qed.

Lemma span_label_universal_newlines s :
  Re.span_label (Py.universal_newlines s)
  = ((Re.span_label s).1, Py.universal_newlines (Re.span_label s).2).
Proof.
  induction s as [|c d s Hc Hd IH|c s Hc Hs IH|c s Hc IH]
    using universal_newlines_ind.
  - done.
  - destruct (cr_facts c Hc) as (_ & _ & _ & _ & Hl).
    cbn [Re.span_label]. rewrite Hl. cbn [fst snd].
    by rewrite universal_newlines_cr_lf.
  - destruct (cr_facts c Hc) as (_ & _ & _ & _ & Hl).
    cbn [Re.span_label]. rewrite Hl. cbn [fst snd].
    by rewrite universal_newlines_cr.
  - rewrite universal_newlines_other by done. cbn [Re.span_label].
    destruct (Re.is_label_char c).
    + rewrite IH. by destruct (Re.span_label s).
    + cbn [fst snd]. by rewrite universal_newlines_other.
Qed.

(** A URL begins at the same places of a log and of what text mode makes
    of the log. *)
Lemma match_url_universal_newlines s :
  Re.match_url (Py.universal_newlines s) = Re.match_url s.
Proof.
  unfold Re.match_url. rewrite prefix_universal_newlines by done.
  destruct (String.prefix Re.url_head s) eqn:Hh; [|done].
  rewrite drop_universal_newlines by done.
  rewrite span_label_universal_newlines.
  destruct (Re.span_label (Py.drop _ s)) as [run rest]. cbn [fst snd].
  by rewrite prefix_universal_newlines.
Qed.

Lemma match_url_head c s m : Re.match_url (String c s) = Some m -> c = "h"%char.
Proof.
  unfold Re.match_url. cbn [String.prefix Re.url_head].
  by destruct (ascii_dec "h" c).
Qed.

Lemma match_url_line_break c s :
  (Py.ord c =? 13)%N = true \/ (Py.ord c =? 10)%N = true ->
  Re.match_url (String c s) = None.
Proof.
  intros Hc. destruct (Re.match_url (String c s)) as [m|] eqn:Hm; [|done].
  apply match_url_head in Hm as ->. by destruct Hc as [Hc|Hc]; vm_compute in Hc.
Qed.

Lemma py_take_app a b : Py.take (String.length a) (a +:+ b) = a.
Proof. induction a as [|c a IH]; [by destruct b|]. simpl. by rewrite IH. Qed.

Lemma label_no_cr run : Py.str_all Re.is_label_char run = true -> no_cr run = true.
Proof.
  apply str_all_impl. intros c.
  destruct c as [[] [] [] [] [] [] [] []]; by vm_compute.
Qed.

Lemma findall_from_universal_newlines s : forall k,
  no_cr (Py.take k s) = true ->
  Re.findall_from k (Py.universal_newlines s) = Re.findall_from k s.
Proof.
  induction s as [|c d s Hc Hd IH|c s Hc Hs IH|c s Hc IH]
    using universal_newlines_ind; intros k Hk.
  - done.
  - destruct k as [|k].
    2:{ unfold no_cr in Hk. cbn [Py.take Py.str_all] in Hk. by rewrite Hc in Hk. }
    rewrite universal_newlines_cr_lf by done. cbn [Re.findall_from].
    rewrite !match_url_line_break by (auto || by right).
    by apply IH.
  - destruct k as [|k].
    2:{ unfold no_cr in Hk. cbn [Py.take Py.str_all] in Hk. by rewrite Hc in Hk. }
    rewrite universal_newlines_cr by done. cbn [Re.findall_from].
    rewrite !match_url_line_break by (auto || by right).
    by apply IH.
  - destruct k as [|k].
    + rewrite universal_newlines_other by done. cbn [Re.findall_from].
      rewrite <- (universal_newlines_other c s) by done.
      rewrite match_url_universal_newlines.
      destruct (Re.match_url (String c s)) as [m|] eqn:Hm; [|by apply IH].
      f_equal. apply IH.
      destruct (match_url_spec _ _ Hm) as (run & post & Hmeq & Hrun & Hsplit).
      assert (no_cr m = true) as Hno.
      { rewrite Hmeq. pose proof (label_no_cr run Hrun) as Hr.
        unfold no_cr in *. rewrite !str_all_app. by rewrite Hr. }
      destruct m as [|x m']; [done|].
      rewrite string_app_cons in Hsplit. injection Hsplit as _ ->.
      cbn [String.length]. rewrite Nat.sub_1_r. cbn [Nat.pred].
      rewrite py_take_app. unfold no_cr in *. cbn [Py.str_all] in Hno.
      by apply andb_true_iff in Hno as [_ ->].
    + rewrite universal_newlines_other by done. cbn [Re.findall_from].
      apply IH. unfold no_cr in *. cbn [Py.take Py.str_all] in Hk.
      by apply andb_true_iff in Hk as [_ ->].
Qed.

(** The log scanner of lines 124-130 finds the same URLs in the log as it
    is stored and as text mode hands it over. *)
Lemma public_url_universal_newlines content :
  public_url_of (Py.universal_newlines content) = public_url_of content.
Proof.
  unfold public_url_of, Re.findall.
  by rewrite findall_from_universal_newlines.
Qed.

(** ** The listing of any directory *)

Section ListingRuns.
Context {os : OS}.
Implicit Types (w : world os).

Lemma stale_not_live w c pid : stale_content w c -> live_content w c pid -> False.
Proof.
  unfold stale_content, live_content. intros Hs [Hi Hp].
  rewrite Hi, Hp in Hs. done.
Qed.

Lemma read_config_eq tunnel_id w :
  read_config tunnel_id w = (Ok (config_of (dir w) tunnel_id), w, []).
Proof.
  unfold read_config, config_of. exec.
  destruct (dir w !! config_path tunnel_id) as [c|] eqn:E; exec; reflexivity.
Qed.

Lemma read_public_url_eq tunnel_id w :
  read_public_url tunnel_id w
  = (Ok (match logs w !! log_path tunnel_id with
         | Some content => public_url_of content
         | None => ""
         end), w, []).
Proof.
  unfold read_public_url. exec.
  destruct (logs w !! log_path tunnel_id); reflexivity.
Qed.

Lemma tunnel_entry_cases pid_file d l (o : ostate os) c :
  d !! pid_file = Some c ->
  let w := World d l o in
  let tunnel_id := Py.replace ".pid" "" pid_file in
  exists r d' t,
    tunnel_entry pid_file w = (Ok r, World d' l o, t)
    /\ Forall listing_event t
    /\ ((stale_content w c /\ r = None
         /\ d' = delete (config_path tunnel_id) (delete pid_file d))
        \/ (exists pid, live_content w c pid
            /\ r = Some (entry_of d l tunnel_id pid) /\ d' = d
            /\ Forall probe_event t)
        \/ (unprobed_content w c /\ r = None /\ d' = d
            /\ Forall probe_event t)).
Proof.
  intros Hc. cbv zeta.
  unfold stale_content, live_content, unprobed_content, tunnel_entry, entry_of.
  cbn [ost]. exec.
  destruct (Py.int (Py.strip c)) as [pid|] eqn:Hi; exec.
  - destruct (os_probe os o pid) eqn:Hp; exec.
    + rewrite read_config_eq. exec. rewrite read_public_url_eq. exec.
      eexists _, _, _. split; [reflexivity|]. split; [repeat constructor|].
      right; left. exists pid. split; [done|]. split; [done|]. split; [done|].
      repeat constructor.
    + eexists _, _, _. split; [reflexivity|]. split.
      { destruct (delete pid_file d !! _); repeat constructor. }
      left. done.
    + eexists _, _, _. split; [reflexivity|]. split.
      { destruct (delete pid_file d !! _); repeat constructor. }
      left. done.
    + eexists _, _, _. split; [reflexivity|]. split.
      { destruct (delete pid_file d !! _); repeat constructor. }
      left. done.
    + eexists _, _, _. split; [reflexivity|]. split; [repeat constructor|].
      right; right. split; [eauto|]. split; [done|]. split; [done|].
      repeat constructor.
  - eexists _, _, _. split; [reflexivity|]. split.
    { destruct (delete pid_file d !! _); repeat constructor. }
    left. done.
Qed.

Lemma live_content_inj w c pid pid' :
  live_content w c pid -> live_content w c pid' -> pid = pid'.
Proof. intros [H _] [H' _]. congruence. Qed.

Lemma unprobed_not_live w c pid :
  unprobed_content w c -> live_content w c pid -> False.
Proof. intros (p & Hi & Hp) [Hi' Hp']. congruence. Qed.

(** The loop over the PID files [fs] of the directory [d0], entered in a
    directory [d] in which these files are still as in [d0]. *)
Lemma for_pid_files_cases (d0 : gmap string string) l (o : ostate os) fs :
  forall tunnels d,
  NoDup fs ->
  (forall f, f ∈ fs ->
     Py.endswith ".pid" f = true /\ is_Some (d0 !! f) /\ d !! f = d0 !! f) ->
  let w0 := World d0 l o in
  exists ts d' t,
    for_pid_files fs tunnels (World d l o)
    = (Ok (tunnels ++ ts), World d' l o, t)
    /\ d' ⊆ d
    /\ Forall listing_event t
    /\ (forall f c, f ∈ fs -> d0 !! f = Some c -> stale_content w0 c ->
          d' !! f = None /\ d' !! config_path (Py.replace ".pid" "" f) = None)
    /\ (forall k, d' !! k <> d !! k ->
          exists f c, f ∈ fs /\ d0 !! f = Some c /\ stale_content w0 c
                      /\ (k = f \/ k = config_path (Py.replace ".pid" "" f)))
    /\ (forall f c pid, f ∈ fs -> d0 !! f = Some c -> live_content w0 c pid ->
          exists d'', d' ⊆ d'' /\ d'' ⊆ d
                      /\ entry_of d'' l (Py.replace ".pid" "" f) pid ∈ ts)
    /\ (forall info, info ∈ ts ->
          exists f c pid d'',
            f ∈ fs /\ d0 !! f = Some c /\ live_content w0 c pid
            /\ d' ⊆ d'' /\ d'' ⊆ d
            /\ info = entry_of d'' l (Py.replace ".pid" "" f) pid)
    /\ ((forall f c, f ∈ fs -> d0 !! f = Some c -> ~ stale_content w0 c) ->
        Forall probe_event t).
Proof.
  induction fs as [|f fs IH]; intros tunnels d Hnd Hfs; cbv zeta.
  - exists [], d, []. simpl. rewrite app_nil_r.
    split; [done|]. split; [done|]. split; [constructor|].
    split; [intros f c Hf; by apply elem_of_nil in Hf|].
    split; [done|].
    split; [intros f c pid Hf; by apply elem_of_nil in Hf|].
    split; [intros info Hin; by apply elem_of_nil in Hin|].
    constructor.
  - apply NoDup_cons in Hnd as [Hf Hnd].
    destruct (Hfs f) as (Hend & [c Hc0] & Hc); [by left|].
    rewrite Hc0 in Hc.
    destruct (tunnel_entry_cases f d l o c Hc)
      as (r & d1 & t1 & Hrun & Ht1 & Hcases).
    cbv zeta in Hcases.
    assert (d1 ⊆ d) as Hsub.
    { destruct Hcases as [(_ & _ & ->)|[(? & _ & _ & -> & _)|(_ & _ & -> & _)]];
        [|done|done].
      etrans; apply delete_subseteq. }
    assert (forall k, d1 !! k <> d !! k ->
              stale_content (World d0 l o) c
              /\ (k = f \/ k = config_path (Py.replace ".pid" "" f))) as Hch.
    { intros k Hk.
      destruct Hcases as [(Hst & _ & ->)|[(? & _ & _ & -> & _)|(_ & _ & -> & _)]];
        [|done|done].
      split; [exact Hst|].
      destruct (decide (k = config_path (Py.replace ".pid" "" f))); [by right|].
      destruct (decide (k = f)); [by left|].
      by rewrite !lookup_delete_ne in Hk. }
    assert (forall f', f' ∈ fs ->
              Py.endswith ".pid" f' = true /\ is_Some (d0 !! f')
              /\ d1 !! f' = d0 !! f') as Hfs'.
    { intros f' Hf'. destruct (Hfs f') as (He & Hs & Heq); [by right|].
      split; [done|]. split; [done|]. rewrite <- Heq.
      destruct (decide (d1 !! f' = d !! f')) as [|Hne]; [done|].
      destruct (Hch _ Hne) as [_ [->| ->]]; [done|].
      by rewrite config_path_not_pid_file in He. }
    destruct (IH (match r with Some t => tunnels ++ [t] | None => tunnels end)
                d1 Hnd Hfs')
      as (ts & d' & t2 & Hloop & Hd' & Ht2 & Hpurged & Hchanged & Hlive
          & Hinfo & Hquiet).
    cbv zeta in Hloop, Hpurged, Hchanged, Hlive, Hinfo, Hquiet.
    exists (match r with Some t => t :: ts | None => ts end), d', (t1 ++ t2).
    split.
    { change (@for_pid_files os (f :: fs) tunnels)
        with (r <- @tunnel_entry os f ;;
              for_pid_files fs
                (match r with Some t => tunnels ++ [t] | None => tunnels end)).
      rewrite bind_unfold, Hrun, Hloop.
      destruct r; simpl; by rewrite <- ?app_assoc. }
    split; [by etrans|].
    split; [by apply Forall_app|].
    split; [|split; [|split; [|split]]].
    + intros f' c' Hf' Hc' Hst. apply elem_of_cons in Hf' as [->|Hf'].
      * rewrite Hc0 in Hc'. injection Hc' as <-.
        destruct Hcases as [(_ & _ & ->)|[(pid & Hl & _)|(Hu & _)]].
        -- split; (eapply lookup_weaken_None; [|exact Hd']).
           ++ rewrite lookup_delete_ne; [apply lookup_delete_eq|].
              intros E. rewrite <- E in Hend.
              by rewrite config_path_not_pid_file in Hend.
           ++ apply lookup_delete_eq.
        -- destruct (stale_not_live _ _ _ Hst Hl).
        -- destruct Hu as (p & Hi & Hp). unfold stale_content in Hst.
           cbn [ost] in *. by rewrite Hi, Hp in Hst.
      * by eapply Hpurged.
    + intros k Hk.
      destruct (decide (d' !! k = d1 !! k)) as [E|Hne].
      * rewrite E in Hk. destruct (Hch _ Hk) as [Hst Hor].
        exists f, c. split; [by left|]. done.
      * destruct (Hchanged _ Hne) as (f' & c' & Hf' & ?).
        exists f', c'. split; [by right|]. done.
    + intros f' c' pid Hf' Hc' Hl. apply elem_of_cons in Hf' as [->|Hf'].
      * rewrite Hc0 in Hc'. injection Hc' as <-.
        destruct Hcases as [(Hst & _)|[(pid' & Hl' & -> & -> & _)|(Hu & _)]].
        -- destruct (stale_not_live _ _ _ Hst Hl).
        -- rewrite (live_content_inj _ _ _ _ Hl Hl').
           exists d. split; [done|]. split; [done|]. by left.
        -- destruct (unprobed_not_live _ _ _ Hu Hl).
      * destruct (Hlive _ _ _ Hf' Hc' Hl) as (d'' & ? & ? & Hin).
        exists d''. split; [done|]. split; [by etrans|].
        destruct r; [by right|done].
    + intros info Hin.
      assert (info ∈ ts \/ r = Some info) as [Hts|Hr].
      { destruct r; [|by left].
        apply elem_of_cons in Hin as [->|]; [by right|by left]. }
      * destruct (Hinfo info Hts) as (f' & c' & pid & d'' & ? & ? & ? & ? & ? & ?).
        exists f', c', pid, d''. split; [by right|].
        split; [done|]. split; [done|]. split; [done|]. split; [by etrans|done].
      * destruct Hcases as [(_ & -> & _)|[(pid & Hl & -> & -> & _)|(_ & -> & _)]];
          [done| |done].
        injection Hr as <-.
        exists f, c, pid, d. split; [by left|]. done.
    + intros Hno. apply Forall_app. split.
      * destruct Hcases as [(Hst & _)|[(? & _ & _ & _ & Ht)|(_ & _ & _ & Ht)]];
          [|done|done].
        destruct (Hno f c); [by left|done|done].
      * apply Hquiet. intros f' c' Hf'. apply Hno. by right.
Qed.

Lemma pid_files_of_dir (d : gmap string string) f :
  f ∈ List.filter (Py.endswith ".pid") (map_to_list d).*1
  <-> Py.endswith ".pid" f = true /\ is_Some (d !! f).
Proof.
  rewrite list_elem_of_In, filter_In, <- list_elem_of_In.
  rewrite list_elem_of_fmap. split.
  - intros [([f' c] & -> & Hin) He]. split; [done|].
    apply elem_of_map_to_list in Hin. eauto.
  - intros [He [c Hc]]. split; [|done]. exists (f, c). split; [done|].
    by apply elem_of_map_to_list.
Qed.

(** A listing, whatever the directory. *)
Lemma get_running_tunnels_cases w :
  exists ts d' t,
    get_running_tunnels w = (Ok ts, World d' (logs w) (ost w), t)
    /\ d' ⊆ dir w
    /\ Forall listing_event t
    /\ (forall f c,
          dir w !! f = Some c -> Py.endswith ".pid" f = true ->
          stale_content w c ->
          d' !! f = None /\ d' !! config_path (Py.replace ".pid" "" f) = None)
    /\ (forall k, d' !! k <> dir w !! k ->
          exists f c,
            Py.endswith ".pid" f = true /\ dir w !! f = Some c
            /\ stale_content w c
            /\ (k = f \/ k = config_path (Py.replace ".pid" "" f)))
    /\ (forall f c pid,
          dir w !! f = Some c -> Py.endswith ".pid" f = true ->
          live_content w c pid ->
          exists d'', d' ⊆ d'' /\ d'' ⊆ dir w
                      /\ entry_of d'' (logs w) (Py.replace ".pid" "" f) pid ∈ ts)
    /\ (forall info, info ∈ ts ->
          exists f c pid d'',
            Py.endswith ".pid" f = true /\ dir w !! f = Some c
            /\ live_content w c pid /\ d' ⊆ d'' /\ d'' ⊆ dir w
            /\ info = entry_of d'' (logs w) (Py.replace ".pid" "" f) pid)
    /\ ((forall f c, dir w !! f = Some c -> Py.endswith ".pid" f = true ->
                     ~ stale_content w c) ->
        Forall probe_event t).
Proof.
  destruct w as [d0 l o]. cbn [dir logs ost].
  set (fs := List.filter (Py.endswith ".pid") (map_to_list d0).*1).
  pose proof (pid_files_of_dir d0) as Hfs. fold fs in Hfs.
  destruct (for_pid_files_cases d0 l o fs [] d0) as
    (ts & d' & t & Hrun & Hsub & Ht & Hpurged & Hchanged & Hlive & Hinfo
     & Hquiet).
  { apply NoDup_ListNoDup, List.NoDup_filter, NoDup_ListNoDup,
      NoDup_fst_map_to_list. }
  { intros f Hf. apply Hfs in Hf as [? ?]. done. }
  cbv zeta in Hpurged, Hchanged, Hlive, Hinfo, Hquiet. simpl in Hrun.
  exists ts, d', t. split.
  { unfold get_running_tunnels. exec. fold fs. rewrite Hrun. reflexivity. }
  split; [done|]. split; [done|].
  split; [|split; [|split; [|split]]].
  - intros f c Hc He. apply (Hpurged f c); [|done]. apply Hfs. eauto.
  - intros k Hk. destruct (Hchanged k Hk) as (f & c & Hf & Hc & Hst & Hor).
    apply Hfs in Hf as [He _]. eauto 10.
  - intros f c pid Hc He. apply (Hlive f c pid); [|done]. apply Hfs. eauto.
  - intros info Hin.
    destruct (Hinfo info Hin) as (f & c & pid & d'' & Hf & ?).
    apply Hfs in Hf as [He _]. eauto 10.
  - intros Hno. apply Hquiet. intros f c Hf Hc. apply Hfs in Hf as [He _].
    by apply (Hno f c).
Qed.

(** A listing keeps a PID file that records a running process. *)
Lemma listing_keeps_live_pid_file w f c pid :
  dir w !! f = Some c -> Py.endswith ".pid" f = true ->
  live_content w c pid ->
  dir (get_running_tunnels w).1.2 !! f = Some c.
Proof.
  intros Hc He Hl.
  destruct (get_running_tunnels_cases w)
    as (ts & d' & t & Hrun & _ & _ & _ & Hch & _).
  rewrite Hrun. cbn [fst snd dir].
  destruct (decide (d' !! f = dir w !! f)) as [->|Hne]; [done|].
  destruct (Hch f Hne) as (f' & c' & He' & Hc' & Hst & [->| ->]).
  - rewrite Hc in Hc'. injection Hc' as <-.
    destruct (stale_not_live _ _ _ Hst Hl).
  - by rewrite config_path_not_pid_file in He.
Qed.

Lemma stems_well_formed_start (d : gmap string string) id text content :
  Py.str_all Re.is_id_char id = true ->
  stems_well_formed d ->
  stems_well_formed (<[pid_path id := content]> (<[config_path id := text]> d)).
Proof.
  intros Hid Hwf f Hf He.
  destruct (decide (f = pid_path id)) as [->|Hne].
  { by rewrite replace_valid_id. }
  rewrite lookup_insert_ne in Hf by done.
  destruct (decide (f = config_path id)) as [->|Hne'].
  { by rewrite config_path_not_pid_file in He. }
  rewrite lookup_insert_ne in Hf by done. by apply Hwf.
Qed.

Lemma stems_well_formed_empty : stems_well_formed ∅.
Proof. intros f [c Hc]. by rewrite lookup_empty in Hc. Qed.

(** In a well-formed directory a listing keeps the descriptor of a tunnel
    whose PID file records a running process. *)
Lemma listing_keeps_live_config w tunnel_id c pid :
  stems_well_formed (dir w) ->
  dir w !! pid_path tunnel_id = Some c ->
  live_content w c pid ->
  dir (get_running_tunnels w).1.2 !! config_path tunnel_id
  = dir w !! config_path tunnel_id.
Proof.
  intros Hwf Hc Hl.
  destruct (get_running_tunnels_cases w)
    as (ts & d' & t & Hrun & _ & _ & _ & Hch & _).
  rewrite Hrun. cbn [fst snd dir].
  destruct (decide (d' !! config_path tunnel_id
                    = dir w !! config_path tunnel_id)) as [|Hne]; [done|].
  destruct (Hch _ Hne) as (f & c' & He & Hc' & Hst & [E|E]).
  - rewrite <- E in He. by rewrite config_path_not_pid_file in He.
  - apply string_app_inj_r in E.
    assert (f = pid_path tunnel_id) as ->.
    { rewrite E. apply Hwf; [eauto|done]. }
    rewrite Hc in Hc'. injection Hc' as <-.
    destruct (stale_not_live _ _ _ Hst Hl).
Qed.

Lemma public_url_of_shape content :
  public_url_of content = ""
  \/ exists run pre post,
       Py.str_all Re.is_label_char run = true
       /\ public_url_of content = Re.url_head +:+ run +:+ Re.url_tail
       /\ content = pre +:+ public_url_of content +:+ post.
Proof.
  unfold public_url_of.
  destruct (Re.findall content) as [|m ms] eqn:E; [by left|]. right.
  destruct (exists_last (l := m :: ms) ltac:(done)) as (ms' & m' & Hl).
  rewrite Hl in E.
  assert (List.last ms m = m') as ->.
  { destruct ms as [|m0 ms0].
    - destruct ms' as [|? [|? ?]]; simpl in Hl; by simplify_eq.
    - transitivity (List.last (m :: m0 :: ms0) m); [done|].
      rewrite Hl. apply last_last. }
  unfold Re.findall in E.
  destruct (findall_last _ _ _ _ E) as (pre & post & -> & Hm & _).
  destruct (match_url_spec _ _ Hm) as (run & post' & Hshape & Hrun & _).
  exists run, pre, post. done.
Qed.


(** X1.  Where the files of the directory and the logs are ASCII text, the
    entries of a listing are the PID files whose process the probe reports
    as running: each such file has an entry with the id that line 70 derives
    from its name and with its pid, and each entry comes from such a
    file. *)
Theorem listing_entries_are_the_running_tunnels w :
  ascii_files (dir w) = true -> ascii_files (logs w) = true ->
  exists ts,
    (get_running_tunnels w).1.1 = Ok ts
    /\ (forall f c pid,
          dir w !! f = Some c -> Py.endswith ".pid" f = true ->
          live_content w c pid ->
          exists info,
            info ∈ ts /\ t_id info = Py.replace ".pid" "" f
            /\ t_pid info = Py.str pid /\ t_is_running info = true)
    /\ (forall info, info ∈ ts ->
          t_is_running info = true
          /\ exists f c pid,
               dir w !! f = Some c /\ Py.endswith ".pid" f = true
               /\ live_content w c pid
               /\ t_id info = Py.replace ".pid" "" f
               /\ t_pid info = Py.str pid).
Proof.
  intros _ _.
  destruct (get_running_tunnels_cases w)
    as (ts & d' & t & Hrun & _ & _ & _ & _ & Hlive & Hinfo & _).
  exists ts. rewrite Hrun. split; [done|]. split.
  - intros f c pid Hc He Hl.
    destruct (Hlive f c pid Hc He Hl) as (d'' & _ & _ & Hin). eauto.
  - intros info Hin.
    destruct (Hinfo info Hin) as (f & c & pid & d'' & He & Hc & Hl & _ & _ & ->).
    split; [done|]. exists f, c, pid. done.
Qed.

(** X2.  After a listing no PID file of ASCII text is left whose content
    is no integer or the pid of a process that the probe reports as not
    running. *)
Theorem listing_leaves_no_stale_pid_file w f c :
  let w' := (get_running_tunnels w).1.2 in
  dir w' !! f = Some c -> Py.endswith ".pid" f = true ->
  ascii_text c = true ->
  ~ stale_content w' c.
Proof.
  destruct (get_running_tunnels_cases w)
    as (ts & d' & t & Hrun & Hsub & _ & Hpurged & _).
  rewrite Hrun. cbn [fst snd dir]. intros Hc He _ Hst.
  destruct (Hpurged f c) as [Hnone _]; [|done|exact Hst|congruence].
  eapply lookup_weaken; [exact Hc|exact Hsub].
Qed.

(** X3.  A listing creates and changes no file and leaves the logs and the
    processes alone; a file that it removes is a PID file with stale content
    or the descriptor of the id derived from such a file. *)
Theorem listing_removes_only_stale_records w :
  let w' := (get_running_tunnels w).1.2 in
  dir w' ⊆ dir w /\ logs w' = logs w /\ ost w' = ost w
  /\ forall k, dir w' !! k <> dir w !! k ->
       exists f c,
         Py.endswith ".pid" f = true /\ dir w !! f = Some c
         /\ stale_content w c
         /\ (k = f \/ k = config_path (Py.replace ".pid" "" f)).
Proof.
  destruct (get_running_tunnels_cases w)
    as (ts & d' & t & Hrun & Hsub & _ & _ & Hchanged & _).
  rewrite Hrun. cbn [fst snd dir logs ost]. done.
Qed.

(** X4.  A listing that follows a listing removes nothing: its effects are
    probes only and it leaves the world as it found it. *)
Theorem listing_twice_is_quiet w :
  let w1 := (get_running_tunnels w).1.2 in
  (get_running_tunnels w1).1.2 = w1
  /\ Forall probe_event (get_running_tunnels w1).2.
Proof.
  cbv zeta.
  destruct (get_running_tunnels_cases w)
    as (ts & d1 & t1 & Hrun1 & Hsub1 & _ & Hpurged & _).
  rewrite Hrun1. cbn [fst snd].
  assert (forall f c, d1 !! f = Some c -> Py.endswith ".pid" f = true ->
                      ~ stale_content w c) as Hclean.
  { intros f c Hc He Hst.
    destruct (Hpurged f c) as [Hnone _]; [|done|exact Hst|congruence].
    eapply lookup_weaken; [exact Hc|exact Hsub1]. }
  destruct (get_running_tunnels_cases (World d1 (logs w) (ost w)))
    as (ts' & d' & t & Hrun & Hsub & _ & _ & Hchanged & _ & _ & Hquiet).
  rewrite Hrun. cbn [fst snd dir logs ost] in *. split.
  - f_equal. apply map_eq. intros k.
    destruct (decide (d' !! k = d1 !! k)) as [|Hne]; [done|].
    destruct (Hchanged k Hne) as (f & c & He & Hc & Hst & _).
    destruct (Hclean f c Hc He Hst).
  - apply Hquiet. intros f c Hc He. by apply (Hclean f c).
Qed.

(** X5.  In a directory whose PID files are all named [<id>.pid], a listing
    keeps both files of a tunnel whose PID file records a process that the
    probe reports as running. *)
Theorem listing_keeps_running_tunnel w tunnel_id c pid :
  stems_well_formed (dir w) ->
  dir w !! pid_path tunnel_id = Some c ->
  live_content w c pid ->
  let w' := (get_running_tunnels w).1.2 in
  dir w' !! pid_path tunnel_id = Some c
  /\ dir w' !! config_path tunnel_id = dir w !! config_path tunnel_id.
Proof.
  intros Hwf Hc Hl. cbv zeta. split.
  - eapply listing_keeps_live_pid_file; [done|apply endswith_app|done].
  - by eapply listing_keeps_live_config.
Qed.

(** X6.  Lines 99-143: a running tunnel whose descriptor is missing and
    whose log, when there is one, is ASCII text, is listed with its id as
    name, with port 3000 and protocol http, and with the public URL of its
    log. *)
Theorem listing_defaults_without_descriptor w f c pid :
  dir w !! f = Some c -> Py.endswith ".pid" f = true ->
  live_content w c pid ->
  let tunnel_id := Py.replace ".pid" "" f in
  dir w !! config_path tunnel_id = None ->
  (forall content,
     logs w !! log_path tunnel_id = Some content ->
     ascii_text content = true) ->
  exists ts,
    (get_running_tunnels w).1.1 = Ok ts
    /\ TunnelInfo tunnel_id tunnel_id "3000" "http" (Py.str pid)
         (match logs w !! log_path tunnel_id with
          | Some content => public_url_of content
          | None => ""
          end) true ∈ ts.
Proof.
  intros Hc He Hl tunnel_id Hnone _.
  destruct (get_running_tunnels_cases w)
    as (ts & d' & t & Hrun & _ & _ & _ & _ & Hlive & _).
  exists ts. rewrite Hrun. split; [done|].
  destruct (Hlive f c pid Hc He Hl) as (d'' & _ & Hsub & Hin).
  unfold entry_of, config_of in Hin. fold tunnel_id in Hin.
  by rewrite (lookup_weaken_None _ _ _ Hnone Hsub) in Hin.
Qed.

(** X7.  Every entry of a listing shows a public URL that is empty or has the
    form [https://<label>.trycloudflare.com] with a label over [[a-zA-Z0-9-]]. *)
Theorem listed_public_url_shape w ts info :
  (get_running_tunnels w).1.1 = Ok ts ->
  info ∈ ts ->
  t_public_url info = ""
  \/ exists run,
       Py.str_all Re.is_label_char run = true
       /\ t_public_url info = Re.url_head +:+ run +:+ Re.url_tail.
Proof.
  destruct (get_running_tunnels_cases w)
    as (ts' & d' & t & Hrun & _ & _ & _ & _ & _ & Hinfo & _).
  rewrite Hrun. intros [= <-] Hin.
  destruct (Hinfo info Hin) as (f & c & pid & d'' & _ & _ & _ & _ & _ & ->).
  unfold entry_of. cbn [t_public_url].
  destruct (logs w !! log_path (Py.replace ".pid" "" f)) as [content|];
    [|by left].
  destruct (public_url_of_shape content) as [?|(run & _ & _ & ? & ? & _)];
    eauto.
Qed.

(** X8.  The descriptor text of lines 198-201 is read back by lines
    100-118 as the name, the port and the protocol that it was made of,
    when these contain no white space and the time stamp no line break. *)
Theorem descriptor_round_trip w tunnel_id now final_name port protocol :
  no_space final_name = true ->
  no_space port = true ->
  no_space protocol = true ->
  single_line now = true ->
  dir w !! config_path tunnel_id
  = Some (config_text now final_name port protocol) ->
  read_config tunnel_id w = (Ok (Config final_name port protocol), w, []).
Proof.
  intros Hn Hp Hpr Hnow Hc. rewrite read_config_eq. unfold config_of.
  rewrite Hc. by rewrite read_config_lines.
Qed.

End ListingRuns.

(** ** [is_process_running_for_pid_file] *)

Section PidFileCheck.
Context {os : OS}.
Implicit Types (w : world os).

(** X14.  Lines 269-278.  The world is left as it is.  For a file that is
    missing the answer is [False], and so it is for a file of ASCII text
    that holds no integer; nothing is probed in these cases.  For a file
    that holds the integer [pid], that process is probed once and the
    answer is that of the probe: [True] when the signal is accepted,
    [False] when it raises an [OSError], and the [OverflowError] of a probe
    is the one exception that leaves the method. *)
Theorem pid_file_check_spec pid_file w :
  let run := is_process_running_for_pid_file pid_file w in
  (dir w !! pid_file = None -> run = (Ok false, w, []))
  /\ (forall c,
        dir w !! pid_file = Some c -> ascii_text c = true ->
        Py.int (Py.strip c) = None ->
        run = (Ok false, w, []))
  /\ (forall c pid,
        dir w !! pid_file = Some c -> Py.int (Py.strip c) = Some pid ->
        let r := os_probe os (ost w) pid in
        run = (probe_value r, w, [EvProbe pid r])).
Proof.
  cbv zeta. unfold is_process_running_for_pid_file.
  split; [|split].
  - intros Hc. by exec.
  - intros c Hc _ Hi. by exec.
  - intros c pid Hc Hi. exec.
    by destruct (os_probe os (ost w) pid) eqn:Hp; exec.
Qed.

End PidFileCheck.

(** X15.  Lines 175-180: a name that is a valid id is its own sanitized name. *)
Theorem sanitize_fixes_valid_ids uuid name :
  valid_id name -> sanitize uuid name = name.
Proof.
  intros [Hne Hall]. unfold sanitize.
  assert (Re.sub_non_id name = name) as ->.
  { clear Hne. induction name as [|c s IH]; [done|].
    cbn [Py.str_all] in Hall. apply andb_true_iff in Hall as [Hc Hs].
    cbn [Re.sub_non_id]. by rewrite Hc, IH. }
  by destruct name.
Qed.

(** ** What [stop_tunnel] does *)

Lemma sleeps_nil : sleeps [] = 0.
Proof. reflexivity. Qed.

Lemma sleeps_cons e t :
  sleeps (e :: t) = (match e with EvSleep => 1 | _ => 0 end) + sleeps t.
Proof. unfold sleeps. simpl. by destruct e. Qed.

Lemma sleeps_app t1 t2 : sleeps (t1 ++ t2) = sleeps t1 + sleeps t2.
Proof. unfold sleeps. by rewrite List.filter_app, length_app. Qed.

Lemma sleeps_listing t : Forall listing_event t -> sleeps t = 0.
Proof.
  induction 1 as [|e t He _ IH]; [done|].
  rewrite sleeps_cons, IH. by destruct e.
Qed.

Lemma stop_event_listing rp t :
  Forall listing_event t -> Forall (stop_event rp) t.
Proof. intros H. eapply Forall_impl; [exact H|]. by intros []. Qed.

Lemma stop_event_none rp t :
  Forall (stop_event None) t -> Forall (stop_event rp) t.
Proof. intros H. eapply Forall_impl; [exact H|]. by intros []. Qed.

(** Both facts about a trace that is given piece by piece. *)
Ltac trace_done :=
  repeat match goal with
         | |- context [match ?x with Some _ => _ | None => _ end] => destruct x
         end;
  cbn [app];
  (split;
   [ repeat first [ assumption
                  | apply Forall_nil_2
                  | apply Forall_cons_2; [done|]
                  | apply Forall_app_2 ]
   | repeat first [ rewrite sleeps_cons | rewrite sleeps_app
                  | rewrite sleeps_nil ];
     cbv beta iota; lia ]).

Section StopRuns.
Context {os : OS}.
Implicit Types (w : world os) (pid : Z).

(** Lines 316-319: the wait probes and sleeps, at most [n] times. *)
Lemma wait_for_exit_trace n pid : forall w,
  exists r o t,
    wait_for_exit n pid w = (r, World (dir w) (logs w) o, t)
    /\ (r = Ok tt \/ r = Raise OverflowError)
    /\ Forall (stop_event None) t
    /\ sleeps t <= n.
Proof.
  induction n as [|n IH]; intros [d l o]; simpl.
  - exists (Ok tt), o, []. split; [done|]. split; [auto|].
    split; [constructor|]. done.
  - exec. destruct (os_probe os o pid); exec.
    2-5: eexists _, _, _; (split; [reflexivity|]); (split; [auto|]);
         (split; [repeat constructor|]); unfold sleeps; simpl; lia.
    match goal with |- context [wait_for_exit n pid ?w1] =>
      destruct (IH w1) as (r & o' & t & -> & Hr & Ht & Hn) end.
    destruct Hr as [-> | ->]; exec.
    all: eexists _, _, _; (split; [reflexivity|]); (split; [auto|]).
    all: split; [simpl; rewrite ?app_nil_r; by repeat constructor|].
    all: unfold sleeps in *; simpl; rewrite ?app_nil_r; lia.
Qed.

Lemma stop_tunnel_valid_pid_trace tunnel_id w c pid :
  dir w !! pid_path tunnel_id = Some c ->
  Py.int (Py.strip c) = Some pid ->
  Forall (stop_event (Some pid)) (stop_tunnel tunnel_id w).2
  /\ sleeps (stop_tunnel tunnel_id w).2 <= 10.
Proof.
  destruct w as [d l o]. simpl. intros H Hi.
  unfold stop_tunnel. exec.
  destruct (os_probe os o pid) eqn:E0; exec; try by trace_done.
  destruct (os_signal os o pid SIGTERM) as [r1 o1] eqn:E1.
  destruct r1; exec; try by trace_done.
  all: destruct (wait_for_exit_trace 10 pid (World d l o1))
         as (r & o2 & t & -> & [-> | ->] & Ht & Hn); exec.
  all: apply (stop_event_none (Some pid)) in Ht; try by trace_done.
  all: destruct (os_probe os o2 pid) eqn:E2; exec; try by trace_done.
  all: try (destruct (os_signal os o2 pid SIGKILL) as [r3 o3] eqn:E3;
            destruct r3; exec; try by trace_done).
  all: match goal with |- context [get_running_tunnels ?w1] =>
         destruct (get_running_tunnels_spec w1)
           as (rs & d' & t' & -> & Hd' & Ht') end; exec.
  all: pose proof (sleeps_listing _ Ht') as Hz;
       apply (stop_event_listing (Some pid)) in Ht'; by trace_done.
Qed.

Lemma stop_tunnel_outcome tunnel_id w :
  exists b w' t,
    stop_tunnel tunnel_id w = (Ok b, w', t)
    /\ dir w' ⊆ dir w /\ logs w' = logs w.
Proof.
  destruct (dir w !! pid_path tunnel_id) as [c|] eqn:Hc.
  - destruct (Py.int (Py.strip c)) as [pid|] eqn:Hi.
    + destruct (stop_tunnel_valid_pid tunnel_id w c pid Hc Hi)
        as (b & d & o & t & -> & Hd).
      eexists b, _, _. split; [reflexivity|]. cbn [dir logs].
      split; [|done]. destruct b; [|by subst].
      etrans; [exact Hd|]. unfold purged. etrans; apply delete_subseteq.
    + rewrite (stop_tunnel_invalid_pid tunnel_id w c) by done.
      eexists false, _, _. split; [reflexivity|]. cbn [dir logs].
      split; [|done]. apply delete_subseteq.
  - rewrite stop_tunnel_not_found by done. by eexists false, _, _.
Qed.

(** X17.  [stop_tunnel] always returns a boolean: no exception leaves it.  It
    creates and changes no file of the directory, and it leaves the logs as
    they are. *)
Theorem stop_tunnel_returns tunnel_id w :
  exists b,
    (stop_tunnel tunnel_id w).1.1 = Ok b
    /\ dir (stop_tunnel tunnel_id w).1.2 ⊆ dir w
    /\ logs (stop_tunnel tunnel_id w).1.2 = logs w.
Proof.
  destruct (stop_tunnel_outcome tunnel_id w) as (b & w' & t & -> & Hd & Hl).
  by exists b.
Qed.

(** X18.  Every signal that [stop_tunnel] sends goes to the process that the
    PID file of the tunnel records; without such a record no signal is sent.
    Apart from signals the call only probes, sleeps and removes files. *)
Theorem stop_tunnel_signals_recorded_pid tunnel_id w :
  Forall (stop_event (recorded_pid w tunnel_id)) (stop_tunnel tunnel_id w).2.
Proof.
  unfold recorded_pid.
  destruct (dir w !! pid_path tunnel_id) as [c|] eqn:Hc.
  - destruct (Py.int (Py.strip c)) as [pid|] eqn:Hi.
    + by destruct (stop_tunnel_valid_pid_trace tunnel_id w c pid Hc Hi).
    + rewrite (stop_tunnel_invalid_pid tunnel_id w c) by done.
      by repeat constructor.
  - rewrite stop_tunnel_not_found by done. constructor.
Qed.

(** X19.  [stop_tunnel] sleeps at most ten times: with the half second of line
    319 the graceful wait is bounded by five seconds. *)
Theorem stop_tunnel_bounded_wait tunnel_id w :
  sleeps (stop_tunnel tunnel_id w).2 <= 10.
Proof.
  destruct (dir w !! pid_path tunnel_id) as [c|] eqn:Hc.
  - destruct (Py.int (Py.strip c)) as [pid|] eqn:Hi.
    + by destruct (stop_tunnel_valid_pid_trace tunnel_id w c pid Hc Hi).
    + rewrite (stop_tunnel_invalid_pid tunnel_id w c) by done.
      unfold sleeps. simpl. lia.
  - rewrite stop_tunnel_not_found by done. unfold sleeps. simpl. lia.
Qed.

(** X20.  Lines 294-301: when the PID file records a process that the probe
    reports as not running, [stop_tunnel] removes both files of the tunnel and
    reports success; after the probe it only removes files: it sends no
    signal, it does not sleep, and it does not list the tunnels. *)
Theorem stop_tunnel_stale tunnel_id w c pid :
  dir w !! pid_path tunnel_id = Some c ->
  Py.int (Py.strip c) = Some pid ->
  probe_value (os_probe os (ost w) pid) = Ok false ->
  let out := stop_tunnel tunnel_id w in
  out.1.1 = Ok true
  /\ out.1.2 = World (purged tunnel_id (dir w)) (logs w) (ost w)
  /\ exists removals,
       out.2 = EvProbe pid (os_probe os (ost w) pid) :: removals
       /\ Forall (fun e => exists path, e = EvRemove path) removals.
Proof.
  destruct w as [d l o]. cbn [dir logs ost]. intros Hc Hi Hp.
  unfold stop_tunnel, purged. exec.
  destruct (os_probe os o pid) eqn:E0; try discriminate; exec.
  all: split; [done|]; split; [done|].
  all: eexists; split; [reflexivity|].
  all: destruct (delete (pid_path tunnel_id) d !! config_path tunnel_id);
       repeat constructor; eauto.
Qed.

(** X21.  Lines 303-339: when the process is running, accepts SIGTERM and is
    reported as not running at the end of the bounded wait, no SIGKILL is
    sent; both files are removed and success is reported. *)
Theorem stop_tunnel_graceful tunnel_id w c pid :
  dir w !! pid_path tunnel_id = Some c ->
  Py.int (Py.strip c) = Some pid ->
  os_probe os (ost w) pid = KillOk ->
  let sigterm := os_signal os (ost w) pid SIGTERM in
  let waited := wait_for_exit 10 pid (World (dir w) (logs w) sigterm.2) in
  signal_value sigterm.1 = Ok true ->
  waited.1.1 = Ok tt ->
  probe_value (os_probe os (ost waited.1.2) pid) = Ok false ->
  let out := stop_tunnel tunnel_id w in
  out.1.1 = Ok true
  /\ never_sends SIGKILL out.2
  /\ ost out.1.2 = ost waited.1.2
  /\ dir out.1.2 !! pid_path tunnel_id = None
  /\ dir out.1.2 !! config_path tunnel_id = None.
Proof.
  destruct w as [d l o]. cbn [dir logs ost]. intros Hc Hi E0.
  destruct (os_signal os o pid SIGTERM) as [r1 o1] eqn:E1. cbn [fst snd].
  destruct (wait_for_exit_trace 10 pid (World d l o1))
    as (r & o2 & t_wait & Hwait & _ & Ht & _).
  cbn [dir logs ost] in Hwait. rewrite Hwait. cbn [fst snd ost].
  intros Hr1 -> E2.
  unfold stop_tunnel. exec.
  destruct r1; try discriminate; exec.
  all: destruct (os_probe os o2 pid) eqn:E3; try discriminate; exec.
  all: match goal with |- context [get_running_tunnels ?w1] =>
         destruct (get_running_tunnels_spec w1)
           as (rs & d' & t' & -> & Hd' & Ht') end; exec.
  all: split; [done|]; split;
       [|split; [done|split; eapply lookup_weaken_None;
                        eauto using purged_pid, purged_config]].
  all: intros p r Hin; cbn [app] in Hin.
  all: repeat (destruct Hin as [Hin|Hin]; [discriminate|]).
  all: apply in_app_iff in Hin as [Hin|Hin];
       [rewrite List.Forall_forall in Ht; apply Ht in Hin; simpl in Hin;
        discriminate|].
  all: repeat (destruct Hin as [Hin|Hin]; [discriminate|]).
  all: repeat (apply in_app_iff in Hin as [Hin|Hin]).
  all: try (destruct (delete (pid_path tunnel_id) d !! config_path tunnel_id);
            repeat (destruct Hin as [Hin|Hin]; [discriminate|]); done).
  all: try (rewrite List.Forall_forall in Ht'; apply Ht' in Hin; done).
  all: try done.
Qed.

End StopRuns.

(** ** [get_tunnel_logs] and [stop_all_tunnels] *)

Section Callers.
Context {os : OS}.
Implicit Types (w : world os).

(** X22.  Asked for a positive number of lines of a log of ASCII text,
    [get_tunnel_logs] returns the last lines of the log, as many as were
    asked for or all of them when the log has fewer; the lines are those of
    text mode, in which a CR LF and a CR of the file are read as LF, so that
    in the second case the text is the log with these replaced, and the log
    itself when it holds no CR.  Nothing is changed. *)
Theorem get_tunnel_logs_tail tunnel_id lines w content :
  logs w !! log_path tunnel_id = Some content ->
  ascii_text content = true ->
  (0 < lines)%Z ->
  exists older recent,
    Py.lines content = older ++ recent
    /\ List.length recent
       = Nat.min (Z.to_nat lines) (List.length (Py.lines content))
    /\ get_tunnel_logs tunnel_id lines w = (Ok (Py.join recent), w, [])
    /\ (older = [] -> Py.join recent = Py.universal_newlines content)
    /\ (older = [] -> no_cr content = true -> Py.join recent = content).
Proof.
  intros Hlog _ Hpos. unfold get_tunnel_logs. exec.
  assert (no_cr content = true ->
          Py.universal_newlines content = content) as Hid.
  { apply universal_newlines_no_cr. }
  set (all_lines := Py.lines content).
  destruct (lines <=? Z.of_nat (List.length all_lines))%Z eqn:E.
  - apply Z.leb_le in E. unfold Py.slice_from.
    destruct (- lines <? 0)%Z eqn:E'; [|apply Z.ltb_ge in E'; lia].
    set (k := Z.to_nat (Z.max 0 (Z.of_nat (List.length all_lines) + - lines))).
    exists (firstn k all_lines), (skipn k all_lines).
    split; [by rewrite firstn_skipn|]. split; [|split; [done|]].
    + rewrite length_skipn. unfold k. lia.
    + assert (firstn k all_lines = [] ->
              Py.join (skipn k all_lines) = Py.universal_newlines content)
        as Hall.
      { intros Hnil. pose proof (firstn_skipn k all_lines) as Hsplit.
        rewrite Hnil in Hsplit. cbn [app] in Hsplit. rewrite Hsplit.
        apply join_lines. }
      split; [done|]. intros Hnil Hcr. by rewrite Hall, Hid.
  - apply Z.leb_gt in E. exists [], all_lines.
    split; [done|]. split; [lia|]. split; [done|].
    split; [intros _; apply join_lines|].
    intros _ Hcr. unfold all_lines. by rewrite join_lines, Hid.
Qed.

(** X23.  Asked for zero lines of a log of ASCII text, [get_tunnel_logs]
    returns the whole log as text mode delivers it (a CR LF and a CR of the
    file read as LF), and asked for a negative number [-k] it returns that
    text without its first [k] lines: the slice [all_lines[-lines:]] of line
    363 starts at the head of the list then. *)
Theorem get_tunnel_logs_not_positive tunnel_id lines w content :
  logs w !! log_path tunnel_id = Some content ->
  ascii_text content = true ->
  (lines <= 0)%Z ->
  get_tunnel_logs tunnel_id lines w
  = (Ok (Py.join (skipn (Z.to_nat (- lines)) (Py.lines content))), w, [])
  /\ (lines = 0%Z ->
      get_tunnel_logs tunnel_id lines w
      = (Ok (Py.universal_newlines content), w, [])).
Proof.
  intros Hlog _ Hle.
  assert (get_tunnel_logs tunnel_id lines w
          = (Ok (Py.join (skipn (Z.to_nat (- lines)) (Py.lines content))),
             w, [])) as Heq.
  { unfold get_tunnel_logs. exec.
    set (all_lines := Py.lines content).
    destruct (lines <=? Z.of_nat (List.length all_lines))%Z eqn:E;
      [|apply Z.leb_gt in E; lia].
    unfold Py.slice_from.
    destruct (- lines <? 0)%Z eqn:E'; [apply Z.ltb_lt in E'; lia|].
    destruct (Z.min_spec (- lines) (Z.of_nat (List.length all_lines)))
      as [[_ ->]|[Hge ->]]; [done|].
    rewrite Nat2Z.id. rewrite !skipn_all2; [done|lia|lia]. }
  split; [done|]. intros ->. rewrite Heq.
  change (Z.to_nat (- 0)) with 0. by rewrite drop_0, join_lines.
Qed.

Lemma stop_each_spec tunnels : forall stopped w,
  exists n,
    (stop_each tunnels stopped w).1.1 = Ok n
    /\ stopped <= n <= stopped + List.length tunnels
    /\ dir (stop_each tunnels stopped w).1.2 ⊆ dir w
    /\ logs (stop_each tunnels stopped w).1.2 = logs w.
Proof.
  induction tunnels as [|tunnel rest IH]; intros stopped w.
  - exists stopped. simpl. split; [done|]. split; [lia|done].
  - destruct (stop_tunnel_outcome (t_id tunnel) w)
      as (b & w1 & t1 & Hstop & Hd & Hl).
    change (@stop_each os (tunnel :: rest) stopped)
      with (ok <- @stop_tunnel os (t_id tunnel) ;;
            stop_each rest (if ok then S stopped else stopped)).
    rewrite bind_unfold, Hstop.
    destruct (IH (if b then S stopped else stopped) w1)
      as (n & Hn & Hle & Hd' & Hl').
    destruct (stop_each rest (if b then S stopped else stopped) w1)
      as [[r2 w2] t2].
    cbn [fst snd] in *. exists n. split; [done|].
    split; [destruct b; simpl; lia|]. split; [by etrans|congruence].
Qed.

(** X24.  [stop_all_tunnels] always ends with a count: a tunnel that cannot be
    stopped does not keep the others from being tried.  The count is at most
    the number of tunnels of the listing it starts from; no file is created or
    changed, and the logs are left as they are. *)
Theorem stop_all_tunnels_returns w :
  exists stopped tunnels,
    (get_running_tunnels w).1.1 = Ok tunnels
    /\ (stop_all_tunnels w).1.1 = Ok stopped
    /\ stopped <= List.length tunnels
    /\ dir (stop_all_tunnels w).1.2 ⊆ dir w
    /\ logs (stop_all_tunnels w).1.2 = logs w.
Proof.
  unfold stop_all_tunnels. rewrite bind_unfold.
  destruct (get_running_tunnels_spec w) as (ts & d1 & t1 & -> & Hd1 & _).
  rewrite bind_unfold.
  destruct (stop_each_spec ts 0 (World d1 (logs w) (ost w)))
    as (n & Hn & Hle & Hd2 & Hl2).
  destruct (stop_each ts 0 (World d1 (logs w) (ost w))) as [[r2 w2] t2].
  cbn [fst snd dir logs] in *. subst r2. rewrite bind_unfold.
  destruct (get_running_tunnels_spec w2) as (ts3 & d3 & t3 & -> & Hd3 & _).
  exists n, ts. cbn [fst snd dir logs]. unfold ret.
  split; [done|]. split; [done|]. split; [lia|].
  split; [by repeat (etrans; [eassumption|])|done].
Qed.

End Callers.

(** ** Runs that meet the conditions of the properties above *)

Lemma running_well_formed : stems_well_formed (dir Scenario.running).
Proof.
  change (dir Scenario.running)
    with (<[pid_path "t" := "7"]>
            (<[config_path "t" := (Scenario.descriptor "t").2]>
               (∅ : gmap string string))).
  apply stems_well_formed_start; [reflexivity|apply stems_well_formed_empty].
Qed.

(** X2 at work.  The listing of the running tunnel [t] leaves its PID file,
    which is not stale. *)
Lemma listing_leaves_no_stale_pid_file_witness :
  let w' := (get_running_tunnels Scenario.running).1.2 in
  dir w' !! "t.pid" = Some "7" /\ ~ stale_content w' "7".
Proof.
  split; [vm_compute; reflexivity|].
  apply (listing_leaves_no_stale_pid_file Scenario.running "t.pid" "7");
    vm_compute; reflexivity.
Defined.

(** X1 at work.  The listing of the tunnel [t], which runs and has a log. *)
Lemma listing_entries_are_the_running_tunnels_witness :
  exists ts,
    (get_running_tunnels Scenario.published).1.1 = Ok ts
    /\ (forall f c pid,
          dir Scenario.published !! f = Some c ->
          Py.endswith ".pid" f = true ->
          live_content Scenario.published c pid ->
          exists info,
            info ∈ ts /\ t_id info = Py.replace ".pid" "" f
            /\ t_pid info = Py.str pid /\ t_is_running info = true)
    /\ (forall info, info ∈ ts ->
          t_is_running info = true
          /\ exists f c pid,
               dir Scenario.published !! f = Some c
               /\ Py.endswith ".pid" f = true
               /\ live_content Scenario.published c pid
               /\ t_id info = Py.replace ".pid" "" f
               /\ t_pid info = Py.str pid).
Proof.
  apply (listing_entries_are_the_running_tunnels Scenario.published);
    vm_compute; reflexivity.
Defined.

(** X5 at work.  The listing keeps both files of the running tunnel [t]. *)
Lemma listing_keeps_running_tunnel_witness :
  let w' := (get_running_tunnels Scenario.running).1.2 in
  dir w' !! pid_path "t" = Some "7"
  /\ dir w' !! config_path "t" = dir Scenario.running !! config_path "t".
Proof.
  apply (listing_keeps_running_tunnel Scenario.running "t" "7" 7).
  - exact running_well_formed.
  - vm_compute; reflexivity.
  - split; vm_compute; reflexivity.
Defined.

(** X6 at work.  The running tunnel [svc] without descriptor. *)
Lemma listing_defaults_without_descriptor_witness :
  exists ts,
    (get_running_tunnels Scenario.orphan).1.1 = Ok ts
    /\ TunnelInfo "svc" "svc" "3000" "http" "4242"
         "https://new-name.trycloudflare.com" true ∈ ts.
Proof.
  apply (listing_defaults_without_descriptor Scenario.orphan "svc.pid" "4242"
           4242).
  - vm_compute; reflexivity.
  - vm_compute; reflexivity.
  - split; vm_compute; reflexivity.
  - vm_compute; reflexivity.
  - intros content Hlog. vm_compute in Hlog. injection Hlog as <-.
    vm_compute. reflexivity.
Defined.

(** X7 at work.  The entry of the tunnel [t] shows the second URL of its log. *)
Lemma listed_public_url_shape_witness :
  let info :=
    TunnelInfo "t" "t" "3000" "http" "7" "https://new-name.trycloudflare.com"
      true in
  t_public_url info = ""
  \/ exists run,
       Py.str_all Re.is_label_char run = true
       /\ t_public_url info = Re.url_head +:+ run +:+ Re.url_tail.
Proof.
  cbv zeta.
  apply (listed_public_url_shape Scenario.published
           [TunnelInfo "t" "t" "3000" "http" "7"
              "https://new-name.trycloudflare.com" true]).
  - vm_compute; reflexivity.
  - constructor.
Defined.

(** X8 at work.  The descriptor of [t] is read back as it was written. *)
Lemma descriptor_round_trip_witness :
  read_config "t" Scenario.running
  = (Ok (Config "t" "3000" "http"), Scenario.running, []).
Proof.
  apply (descriptor_round_trip Scenario.running "t" Scenario.now "t" "3000"
           "http"); vm_compute; reflexivity.
Defined.

(** X15 at work.  The default name of the dialog is a valid id. *)
Lemma sanitize_fixes_valid_ids_witness : sanitize 0 "my-tunnel" = "my-tunnel".
Proof.
  apply (sanitize_fixes_valid_ids 0 "my-tunnel").
  split; [discriminate|reflexivity].
Defined.

(** X20 at work.  The process of [t] has died: the stop only cleans up. *)
Lemma stop_tunnel_stale_witness :
  let w := Scenario.crash 7 Scenario.running in
  let out := stop_tunnel "t" w in
  out.1.1 = Ok true
  /\ out.1.2 = World (purged "t" (dir w)) (logs w) (ost w)
  /\ exists removals,
       out.2 = EvProbe 7 (os_probe Sim.os (ost w) 7) :: removals
       /\ Forall (fun e => exists path, e = EvRemove path) removals.
Proof.
  apply (stop_tunnel_stale "t" (Scenario.crash 7 Scenario.running) "7" 7);
    vm_compute; reflexivity.
Defined.

(** X21 at work.  The process of [t] obeys SIGTERM: no SIGKILL is sent. *)
Lemma stop_tunnel_graceful_witness :
  let out := stop_tunnel "t" Scenario.running in
  out.1.1 = Ok true /\ never_sends SIGKILL out.2.
Proof.
  destruct (stop_tunnel_graceful "t" Scenario.running "7" 7)
    as (Hok & Hnever & _); try (vm_compute; reflexivity).
  split; [exact Hok|exact Hnever].
Defined.

(** X22 at work.  The last two lines of the log of [t]. *)
Lemma get_tunnel_logs_tail_witness :
  exists older recent,
    Py.lines Scenario.log_text = older ++ recent
    /\ List.length recent
       = Nat.min (Z.to_nat 2) (List.length (Py.lines Scenario.log_text))
    /\ get_tunnel_logs "t" 2 Scenario.published
       = (Ok (Py.join recent), Scenario.published, [])
    /\ (older = [] ->
        Py.join recent = Py.universal_newlines Scenario.log_text)
    /\ (older = [] -> no_cr Scenario.log_text = true ->
        Py.join recent = Scenario.log_text).
Proof.
  apply (get_tunnel_logs_tail "t" 2 Scenario.published Scenario.log_text).
  - vm_compute; reflexivity.
  - vm_compute; reflexivity.
  - lia.
Defined.

(** X23 at work.  Zero lines of the log of [t]: the whole log. *)
Lemma get_tunnel_logs_not_positive_witness :
  get_tunnel_logs "t" 0 Scenario.published
  = (Ok Scenario.log_text, Scenario.published, []).
Proof.
  destruct (get_tunnel_logs_not_positive "t" 0 Scenario.published
              Scenario.log_text) as [_ Hzero].
  - vm_compute; reflexivity.
  - vm_compute; reflexivity.
  - lia.
  - apply Hzero. reflexivity.
Defined.
